(** * API_Google.py: the Google tool adapters, embedded and verified

    The development follows [src/API_Google.py]:
    - [GoogleSearchTool]  (web search, [forward]),
    - [GooglePlacesTool]  (places search, [forward], [_parse_location],
      [_api_request], [_format_places]),
    - [get_place_working_hours] (hours lookup).

    Python values coming back from [response.json()] are modelled by the
    inductive [json]; exceptions by [exn]; the process (environment
    variables, the HTTP requests issued so far, standard output) by the
    record [World]; effectful code lives in the monad [M].

    Strings are [String.string]; a character stands for the Unicode code
    point of the same number (U+0000 to U+00FF).  Python [float] is IEEE
    binary64, modelled by Rocq's primitive [float]. *)

From Stdlib Require Import ZArith String Ascii List Bool Lia.
From Stdlib Require Import DecimalString.
From Stdlib Require Import Floats.PrimFloat Floats.FloatOps Floats.SpecFloat.
From stdpp Require Import base option gmap strings.

Local Open Scope string_scope.
Local Open Scope Z_scope.

(* Decimal literals such as 44.8176 denote the nearest binary64 number,
   in Python as here. *)
Set Warnings "-inexact-float".

(** ** Python strings *)

Module PyStr.

Definition nl : string := String (ascii_of_nat 10) EmptyString.
Definition comma : ascii := ascii_of_nat 44.

Definition code (c : ascii) : Z := Z.of_nat (nat_of_ascii c).

(** [str.isspace] on one character, restricted to U+0000..U+00FF. *)
Definition is_space (c : ascii) : bool :=
  let n := code c in
  ((9 <=? n) && (n <=? 13)) || ((28 <=? n) && (n <=? 32))
  || (n =? 133) || (n =? 160).

Definition is_digit (c : ascii) : bool :=
  let n := code c in (48 <=? n) && (n <=? 57).

Definition digit_val (c : ascii) : Z := code c - 48.

Fixpoint lstrip (s : list ascii) : list ascii :=
  match s with
  | c :: s' => if is_space c then lstrip s' else s
  | [] => []
  end.

Definition rstrip (s : list ascii) : list ascii := rev (lstrip (rev s)).

(** [s.strip()] *)
Definition strip (s : string) : string :=
  string_of_list_ascii (rstrip (lstrip (list_ascii_of_string s))).

(** [sep in s] for a one-character [sep]. *)
Fixpoint has_char (sep : ascii) (s : string) : bool :=
  match s with
  | EmptyString => false
  | String c s' => if Ascii.eqb c sep then true else has_char sep s'
  end.

(** [s.split(sep)] for a one-character [sep]: the pieces between the
    separators, in order; always at least one piece. *)
Fixpoint split (sep : ascii) (s : string) : list string :=
  match s with
  | EmptyString => [EmptyString]
  | String c s' =>
      if Ascii.eqb c sep then EmptyString :: split sep s'
      else match split sep s' with
           | p :: ps => String c p :: ps
           | [] => [String c EmptyString]
           end
  end.

(** [sep.join(parts)] *)
Fixpoint join (sep : string) (parts : list string) : string :=
  match parts with
  | [] => EmptyString
  | [p] => p
  | p :: ps => p +:+ sep +:+ join sep ps
  end.

(** [sub in s] *)
Fixpoint is_prefix (p s : string) : bool :=
  match p, s with
  | EmptyString, _ => true
  | String a p', String b s' => Ascii.eqb a b && is_prefix p' s'
  | String _ _, EmptyString => false
  end.

Fixpoint has_substring (sub s : string) : bool :=
  is_prefix sub s ||
  match s with
  | EmptyString => false
  | String _ s' => has_substring sub s'
  end.

(** The lines of [s]: [s.split("\n")]. *)
Definition lines (s : string) : list string := split (ascii_of_nat 10) s.

(** [str(n)] for an [int]. *)
Definition of_int (n : Z) : string := NilZero.string_of_int (Z.to_int n).

Definition repeat_char (c : ascii) (n : nat) : string :=
  string_of_list_ascii (repeat c n).

Definition hex_digit (n : Z) : ascii :=
  ascii_of_nat (Z.to_nat (if n <? 10 then 48 + n else 87 + n)).

Definition quote1 : ascii := ascii_of_nat 39.
Definition quote2 : ascii := ascii_of_nat 34.
Definition backslash : ascii := ascii_of_nat 92.

(** [str.isprintable] on one character of U+0000..U+00FF. *)
Definition is_printable (c : ascii) : bool :=
  let n := code c in
  ((32 <=? n) && (n <=? 126)) || ((161 <=? n) && negb (n =? 173)).

Definition escape_char (q c : ascii) : string :=
  let n := code c in
  if Ascii.eqb c q || Ascii.eqb c backslash then String backslash (String c EmptyString)
  else if n =? 9 then String backslash "t"
  else if n =? 10 then String backslash "n"
  else if n =? 13 then String backslash "r"
  else if is_printable c then String c EmptyString
  else String backslash
         (String "x" (String (hex_digit (n / 16)) (String (hex_digit (n mod 16)) EmptyString))).

Fixpoint escape (q : ascii) (s : string) : string :=
  match s with
  | EmptyString => EmptyString
  | String c s' => escape_char q c +:+ escape q s'
  end.

(** [repr(s)] for a [str]: single quotes, unless the text has a single
    quote and no double quote. *)
Definition repr (s : string) : string :=
  let q := if has_char quote1 s && negb (has_char quote2 s) then quote2 else quote1 in
  String q (escape q s) +:+ String q EmptyString.

End PyStr.

(** ** Python floats: [float(str)] and [repr(float)] *)

Module PyFloat.

Definition prec : Z := 53.
Definition emin : Z := -1074.
Definition emax_m : Z := 971.

(** The binary64 number nearest to [p/q] ([p], [q] positive), ties to
    even: [Some (m, e)] for [m * 2^e] with [m < 2^53], [None] for an
    overflow to infinity. *)
Definition round_nearest (p q : Z) : option (Z * Z) :=
  let e0 := Z.log2 p - Z.log2 q - prec in
  let e1 := Z.max e0 emin in
  let scaled e := if 0 <=? e then (p, q * 2 ^ e) else (p * 2 ^ (- e), q) in
  let '(n0, d0) := scaled e1 in
  let e := if 2 ^ prec <=? n0 / d0 then e1 + 1 else e1 in
  let '(n, d) := scaled e in
  let m := n / d in
  let r := n mod d in
  let m := if (d <? 2 * r) || ((d =? 2 * r) && Z.odd m) then m + 1 else m in
  let '(m, e) := if m =? 2 ^ prec then (2 ^ (prec - 1), e + 1) else (m, e) in
  if emax_m <? e then None else Some (m, e).

Definition of_mant_exp (neg : bool) (me : option (Z * Z)) : float :=
  match me with
  | None => if neg then neg_infinity else infinity
  | Some (m, e) =>
      match m with
      | Zpos pm => SF2Prim (S754_finite neg pm e)
      | _ => if neg then neg_zero else zero
      end
  end.

(** The value of the decimal numeral [d * 10^e10], correctly rounded.
    The two early exits keep the powers of ten small: above [2^1030]
    every numeral is infinite, below [2^-1080] it is zero. *)
Definition of_decimal (neg : bool) (d : Z) (e10 : Z) : float :=
  if d <=? 0 then (if neg then neg_zero else zero)
  else if (0 <=? e10) && (1030 <? Z.log2 d + 3 * e10)
       then (if neg then neg_infinity else infinity)
  else if (e10 <? 0) && (Z.log2 d + 1 + 3 * e10 <? -1080)
       then (if neg then neg_zero else zero)
  else if 0 <=? e10 then of_mant_exp neg (round_nearest (d * 10 ^ e10) 1)
  else of_mant_exp neg (round_nearest d (10 ^ (- e10))).

Section Parse.
Import PyStr.

(** Underscores may only stand between two digits. *)
Fixpoint strip_underscores (prev : option ascii) (s : list ascii) : option (list ascii) :=
  match s with
  | [] => match prev with
          | Some p => if Ascii.eqb p "_" then None else Some []
          | None => Some []
          end
  | c :: s' =>
      let prev_digit := match prev with Some p => is_digit p | None => false end in
      let prev_us := match prev with Some p => Ascii.eqb p "_" | None => false end in
      if Ascii.eqb c "_" then
        if prev_digit then strip_underscores (Some c) s' else None
      else if prev_us && negb (is_digit c) then None
      else option_map (cons c) (strip_underscores (Some c) s')
  end.

Fixpoint take_digits (s : list ascii) : list ascii * list ascii :=
  match s with
  | c :: s' => if is_digit c
               then let '(ds, rest) := take_digits s' in (c :: ds, rest)
               else ([], s)
  | [] => ([], [])
  end.

Definition digits_val (ds : list ascii) : Z :=
  fold_left (fun acc c => 10 * acc + digit_val c) ds 0.

Definition take_sign (s : list ascii) : bool * list ascii :=
  match s with
  | c :: s' => if Ascii.eqb c "-" then (true, s')
               else if Ascii.eqb c "+" then (false, s')
               else (false, s)
  | [] => (false, [])
  end.

Definition lower (c : ascii) : ascii :=
  let n := code c in
  if (65 <=? n) && (n <=? 90) then ascii_of_nat (Z.to_nat (n + 32)) else c.

Definition lower_string (s : list ascii) : string :=
  string_of_list_ascii (map lower s).

(** An optional exponent part; a dangling [e] is left unread. *)
Definition take_exponent (s : list ascii) : Z * list ascii :=
  match s with
  | c :: s' =>
      if Ascii.eqb (lower c) "e" then
        let '(neg, s'') := take_sign s' in
        let '(ds, rest) := take_digits s'' in
        match ds with
        | [] => (0, s)
        | _ => ((if neg then - digits_val ds else digits_val ds), rest)
        end
      else (0, s)
  | [] => (0, [])
  end.

(** The numeral after whitespace and underscores are gone:
    [[sign] (digits [. [digits]] | . digits) [exponent]],
    or [[sign] (inf | infinity | nan)] in any case. *)
Definition parse_plain (s : list ascii) : option float :=
  let '(neg, body) := take_sign s in
  let low := lower_string body in
  if String.eqb low "inf" || String.eqb low "infinity"
  then Some (if neg then neg_infinity else infinity)
  else if String.eqb low "nan" then Some nan
  else
    let '(ip, rest) := take_digits body in
    let '(fp, rest) :=
      match rest with
      | c :: rest' => if Ascii.eqb c "." then take_digits rest' else ([], rest)
      | [] => ([], [])
      end in
    match (ip ++ fp)%list with
    | [] => None
    | ds =>
        let '(ex, rest) := take_exponent rest in
        match rest with
        | [] => Some (of_decimal neg (digits_val ds) (ex - Z.of_nat (length fp)))
        | _ => None
        end
    end.

(** What [float] trims at both ends: the ASCII blanks, and the blanks
    beyond U+007F (which it first turns into spaces).  Unlike [str.strip]
    it keeps U+001C..U+001F. *)
Definition is_float_space (c : ascii) : bool :=
  let n := code c in
  ((9 <=? n) && (n <=? 13)) || (n =? 32) || (n =? 133) || (n =? 160).

Fixpoint trim_left (s : list ascii) : list ascii :=
  match s with
  | c :: s' => if is_float_space c then trim_left s' else s
  | [] => []
  end.

(** [float(s)] for a [str]; [None] is the [ValueError]. *)
Definition parse (s : string) : option float :=
  let body := rev (trim_left (rev (trim_left (list_ascii_of_string s)))) in
  match strip_underscores None body with
  | Some plain => parse_plain plain
  | None => None
  end.
End Parse.

End PyFloat.

(** [repr(x)] for a [float]: the shortest decimal numeral that reads back
    as [x], the one nearest to [x] among those of that length. *)

Module PyFloatRepr.
Import PyStr.

(** [10^k <= p/q] *)
Definition le_pow10 (p q k : Z) : bool :=
  if 0 <=? k then q * 10 ^ k <=? p else q <=? p * 10 ^ (- k).

Fixpoint climb (fuel : nat) (p q k : Z) : Z :=
  match fuel with
  | O => k
  | S fuel' => if le_pow10 p q (k + 1) then climb fuel' p q (k + 1) else k
  end.

(** The [k] with [10^k <= p/q < 10^(k+1)]. *)
Definition floor_log10 (p q : Z) : Z :=
  climb 4 p q (((Z.log2 p - Z.log2 q - 1) * 30103) / 100000 - 1).

(** [c * 10^j] as a fraction. *)
Definition decimal_frac (c j : Z) : Z * Z :=
  if 0 <=? j then (c * 10 ^ j, 1) else (c, 10 ^ (- j)).

Definition same_value (me : option (Z * Z)) (m e : Z) : bool :=
  match me with
  | Some (m', e') =>
      let lo := Z.min e e' in m' * 2 ^ (e' - lo) =? m * 2 ^ (e - lo)
  | None => false
  end.

Definition reads_back (c j m e : Z) : bool :=
  let '(n, d) := decimal_frac c j in
  (0 <? c) && same_value (PyFloat.round_nearest n d) m e.

(** Of the two neighbours [lo] and [lo + 1] of [lo + r/sd], the nearer
    one; exactly half-way between them, the one whose last digit is even. *)
Definition nearer (lo r sd : Z) : Z :=
  if 2 * r <? sd then lo
  else if sd <? 2 * r then lo + 1
  else if Z.even lo then lo else lo + 1.

(** The shortest digits [c] and exponent [j] with [c * 10^j] reading
    back as [m * 2^e]; [n] counts the digits tried so far. *)
Fixpoint shortest_from (fuel : nat) (n : Z) (p q k m e : Z) : Z * Z :=
  let j := k - n + 1 in
  let '(sn, sd) := if 0 <=? j then (p, q * 10 ^ j) else (p * 10 ^ (- j), q) in
  let lo := sn / sd in
  let r := sn mod sd in
  let lo_ok := reads_back lo j m e in
  let hi_ok := reads_back (lo + 1) j m e in
  match fuel with
  | O => (nearer lo r sd, j)
  | S fuel' =>
      if lo_ok && hi_ok then (nearer lo r sd, j)
      else if lo_ok then (lo, j)
      else if hi_ok then (lo + 1, j)
      else shortest_from fuel' (n + 1) p q k m e
  end.

Definition shortest (m e : Z) : Z * Z :=
  let '(p, q) := if 0 <=? e then (m * 2 ^ e, 1) else (m, 2 ^ (- e)) in
  shortest_from 16 1 p q (floor_log10 p q) m e.

Fixpoint drop_trailing_zeros (rev_digits : list ascii) : list ascii :=
  match rev_digits with
  | c :: cs => if Ascii.eqb c "0" then drop_trailing_zeros cs else rev_digits
  | [] => []
  end.

Definition pad2 (n : Z) : string :=
  if n <? 10 then "0" +:+ of_int n else of_int n.

(** Layout of [repr]: exponent form when the decimal point falls at or
    before [-4] or after [16], positional form (with a trailing [.0] for
    whole numbers) otherwise. *)
Definition layout (c j : Z) : string :=
  let all := list_ascii_of_string (of_int c) in
  let decpt := j + Z.of_nat (length all) in
  let ds := rev (drop_trailing_zeros (rev all)) in
  let nd := Z.of_nat (length ds) in
  if (decpt <=? -4) || (16 <? decpt) then
    let ex := decpt - 1 in
    let mant := match ds with
                | d :: [] => String d EmptyString
                | d :: rest => String d (String "." (string_of_list_ascii rest))
                | [] => EmptyString
                end in
    mant +:+ "e" +:+ (if ex <? 0 then "-" else "+") +:+ pad2 (Z.abs ex)
  else if decpt <=? 0 then
    "0." +:+ repeat_char "0" (Z.to_nat (- decpt)) +:+ string_of_list_ascii ds
  else if nd <=? decpt then
    string_of_list_ascii ds +:+ repeat_char "0" (Z.to_nat (decpt - nd)) +:+ ".0"
  else
    string_of_list_ascii (firstn (Z.to_nat decpt) ds) +:+ "."
    +:+ string_of_list_ascii (skipn (Z.to_nat decpt) ds).

Definition repr (x : float) : string :=
  match Prim2SF x with
  | S754_nan => "nan"
  | S754_infinity s => if s then "-inf" else "inf"
  | S754_zero s => if s then "-0.0" else "0.0"
  | S754_finite s m e =>
      let '(c, j) := shortest (Zpos m) e in
      (if s then "-" else "") +:+ layout c j
  end.

End PyFloatRepr.

(** ** Python values and exceptions *)

(** What [response.json()] can return.  A [dict] keeps its keys in
    insertion order; [dict_lookup] reads the first binding of a key. *)
#[warnings="-register-all"]
Inductive json : Type :=
| JNull
| JBool (b : bool)
| JInt (n : Z)
| JFloat (x : float)
| JStr (s : string)
| JArr (items : list json)
| JObj (fields : list (string * json)).

(** The exceptions the adapters raise or let through.  [ValueError] and
    [RequestException] carry [str(e)]; [KeyError] carries the missing key.
    [RequestException] stands for the whole [requests] hierarchy
    (connection errors, timeouts, [HTTPError], [JSONDecodeError]). *)
Inductive exn : Type :=
| ValueError (msg : string)
| KeyError (key : json)
| IndexError
| TypeError
| AttributeError
| RequestException (msg : string).

Inductive Result (A : Type) : Type :=
| Ok (a : A)
| Raise (e : exn).
Arguments Ok {A} a.
Arguments Raise {A} e.

Definition rbind {A B} (r : Result A) (k : A -> Result B) : Result B :=
  match r with
  | Ok a => k a
  | Raise e => Raise e
  end.

Notation "'let?' x ':=' r 'in' k" := (rbind r (fun x => k))
  (at level 10, x name, r at level 100, k at level 200, only parsing).

Module Py.

Fixpoint dict_lookup (k : string) (fields : list (string * json)) : option json :=
  match fields with
  | [] => None
  | (k', v) :: rest => if String.eqb k k' then Some v else dict_lookup k rest
  end.

Definition json_is_str (s : string) (v : json) : bool :=
  match v with
  | JStr s' => String.eqb s s'
  | _ => false
  end.

(** [bool(v)] *)
Definition truthy (v : json) : bool :=
  match v with
  | JNull => false
  | JBool b => b
  | JInt n => negb (n =? 0)
  | JFloat x => negb (PrimFloat.eqb x 0)
  | JStr s => negb (String.eqb s "")
  | JArr l => match l with [] => false | _ => true end
  | JObj l => match l with [] => false | _ => true end
  end.

(** [key in v] for a [str] key *)
Definition contains (key : string) (v : json) : Result bool :=
  match v with
  | JObj fields => Ok (match dict_lookup key fields with Some _ => true | None => false end)
  | JArr items => Ok (existsb (json_is_str key) items)
  | JStr s => Ok (PyStr.has_substring key s)
  | _ => Raise TypeError
  end.

(** [v[key]] for a [str] key *)
Definition getitem (v : json) (key : string) : Result json :=
  match v with
  | JObj fields =>
      match dict_lookup key fields with
      | Some x => Ok x
      | None => Raise (KeyError (JStr key))
      end
  | _ => Raise TypeError
  end.

(** [v[0]] *)
Definition getitem0 (v : json) : Result json :=
  match v with
  | JArr (x :: _) => Ok x
  | JArr [] => Raise IndexError
  | JStr (String c _) => Ok (JStr (String c EmptyString))
  | JStr EmptyString => Raise IndexError
  | JObj _ => Raise (KeyError (JInt 0))
  | _ => Raise TypeError
  end.

(** [len(v)] *)
Definition len (v : json) : Result Z :=
  match v with
  | JArr items => Ok (Z.of_nat (length items))
  | JObj fields => Ok (Z.of_nat (length fields))
  | JStr s => Ok (Z.of_nat (String.length s))
  | _ => Raise TypeError
  end.

Fixpoint chars (s : string) : list json :=
  match s with
  | EmptyString => []
  | String c s' => JStr (String c EmptyString) :: chars s'
  end.

(** The elements [for x in v] runs through. *)
Definition iter (v : json) : Result (list json) :=
  match v with
  | JArr items => Ok items
  | JObj fields => Ok (map (fun kv => JStr (fst kv)) fields)
  | JStr s => Ok (chars s)
  | _ => Raise TypeError
  end.

(** [v.get(key, default)]; only a [dict] has the method. *)
Definition get (v : json) (key : string) (default : json) : Result json :=
  match v with
  | JObj fields =>
      Ok (match dict_lookup key fields with Some x => x | None => default end)
  | _ => Raise AttributeError
  end.

(** [enumerate(l)] *)
Fixpoint enumerate_from {A} (start : Z) (l : list A) : list (Z * A) :=
  match l with
  | [] => []
  | x :: l' => (start, x) :: enumerate_from (start + 1) l'
  end.
Definition enumerate {A} (l : list A) : list (Z * A) := enumerate_from 0 l.

(** [repr(v)], and [str(v)], which differs from it on a [str] only. *)
Fixpoint repr (v : json) : string :=
  match v with
  | JNull => "None"
  | JBool b => if b then "True" else "False"
  | JInt n => PyStr.of_int n
  | JFloat x => PyFloatRepr.repr x
  | JStr s => PyStr.repr s
  | JArr items => "[" +:+ PyStr.join ", " (map repr items) +:+ "]"
  | JObj fields =>
      "{" +:+ PyStr.join ", "
                (map (fun kv => PyStr.repr (fst kv) +:+ ": " +:+ repr (snd kv)) fields)
      +:+ "}"
  end.

Definition str (v : json) : string :=
  match v with
  | JStr s => s
  | _ => repr v
  end.

(** [a or b] on optional strings: [a] when it is truthy, else [b]. *)
Definition or_else (a b : option string) : option string :=
  match a with
  | Some s => if String.eqb s "" then b else a
  | None => b
  end.

End Py.

(** ** The process and the network *)

(** One [requests.get(url, params=..., headers=..., timeout=...)]. *)
Record Request : Type := mkRequest {
  req_url : string;
  req_params : gmap string json;
  req_headers : option (list (string * string));
  req_timeout : option Z
}.

(** The [requests.Response] a delivered request comes back with:
    [resp_url] is the final URL, [resp_json] what [.json()] yields, the
    body parsed or the text of the decoding error. *)
Record Response : Type := mkResponse {
  status_code : Z;
  reason : string;
  resp_url : string;
  resp_json : string + json
}.

(** The provider side of one call: a response, or the [RequestException]
    (by its text) that [requests.get] itself raises. *)
Inductive Outcome : Type :=
| Delivered (r : Response)
| Failed (msg : string).

(** The provider may answer differently as calls accumulate: it sees the
    requests issued before the current one. *)
Definition Network : Type := list Request -> Request -> Outcome.

Record World : Type := mkWorld {
  environ : gmap string string;
  net_log : list Request;
  stdout : list string
}.

(** Effectful code: a world in, a result or an exception and a world out. *)
Definition M (A : Type) : Type := World -> Result A * World.

Definition ret {A} (a : A) : M A := fun w => (Ok a, w).

Definition raise {A} (e : exn) : M A := fun w => (Raise e, w).

Definition bind {A B} (m : M A) (k : A -> M B) : M B :=
  fun w => match m w with
           | (Ok a, w') => k a w'
           | (Raise e, w') => (Raise e, w')
           end.

Definition lift {A} (r : Result A) : M A := fun w => (r, w).

Notation "'let!' x ':=' m 'in' k" := (bind m (fun x => k))
  (at level 10, x name, m at level 100, k at level 200, only parsing).

(** [try: body  except requests.RequestException as e: handler(str(e))] *)
Definition except_RequestException {A} (body : M A) (handler : string -> M A) : M A :=
  fun w => match body w with
           | (Raise (RequestException msg), w') => handler msg w'
           | other => other
           end.

Module Requests.

(** [requests.get]: the call is issued (and logged) whatever comes back. *)
Definition get (net : Network) (rq : Request) : M Response :=
  fun w =>
    let w' := {| environ := environ w;
                 net_log := (net_log w ++ [rq])%list;
                 stdout := stdout w |} in
    match net (net_log w) rq with
    | Delivered r => (Ok r, w')
    | Failed msg => (Raise (RequestException msg), w')
    end.

(** [response.raise_for_status()] *)
Definition raise_for_status (r : Response) : M unit :=
  if (400 <=? status_code r) && (status_code r <? 500) then
    raise (RequestException
             (PyStr.of_int (status_code r) +:+ " Client Error: " +:+ reason r
              +:+ " for url: " +:+ resp_url r))
  else if (500 <=? status_code r) && (status_code r <? 600) then
    raise (RequestException
             (PyStr.of_int (status_code r) +:+ " Server Error: " +:+ reason r
              +:+ " for url: " +:+ resp_url r))
  else ret tt.

(** [response.json()] *)
Definition json (r : Response) : M json :=
  match resp_json r with
  | inr v => ret v
  | inl msg => raise (RequestException msg)
  end.

End Requests.

(** [os.environ.get(name)] and [os.getenv(name, default)] *)
Definition environ_get (name : string) : M (option string) :=
  fun w => (Ok (environ w !! name), w).

Definition getenv (name : string) (default : option string) : M (option string) :=
  fun w => (Ok (match environ w !! name with
                | Some v => Some v
                | None => default
                end), w).

(** [os.environ[name]] *)
Definition environ_item (name : string) : M string :=
  fun w => match environ w !! name with
           | Some v => (Ok v, w)
           | None => (Raise (KeyError (JStr name)), w)
           end.

(** [print(text)] *)
Definition print (text : string) : M unit :=
  fun w => (Ok tt, {| environ := environ w;
                      net_log := net_log w;
                      stdout := (stdout w ++ [text +:+ PyStr.nl])%list |}).

(** ** [class GoogleSearchTool] *)

Module GoogleSearchTool.

Record t : Type := mk { api_key : option string; cx : option string }.

(** [__init__(self, api_key=None, cx=None)] *)
Definition __init__ (api_key cx : option string) : M t :=
  let! env_key := environ_get "GOOGLE_API_KEY" in
  let! env_cx := environ_get "GOOGLE_CSE_ID" in
  ret {| api_key := Py.or_else api_key env_key;
         cx := Py.or_else cx env_cx |}.

Definition endpoint : string := "https://www.googleapis.com/customsearch/v1".

Definition build_params (key cx_id query : string) (filter_year : option Z)
  : gmap string json :=
  let params : gmap string json :=
    <["q" := JStr query]> (<["cx" := JStr cx_id]> (<["key" := JStr key]> ∅)) in
  match filter_year with
  | Some y =>
      <["dateRestrict" := JStr ("y" +:+ PyStr.of_int y)]> (<["sort" := JStr "date"]> params)
  | None => params
  end.

Definition build_request (key cx_id query : string) (filter_year : option Z) : Request :=
  {| req_url := endpoint;
     req_params := build_params key cx_id query filter_year;
     req_headers := None;
     req_timeout := Some 10 |}.

Definition no_results_message (query : string) (filter_year : option Z) : string :=
  let year_filter_message :=
    match filter_year with
    | Some y => " with filter year=" +:+ PyStr.of_int y
    | None => ""
    end in
  "No results found for '" +:+ query +:+ "'" +:+ year_filter_message
  +:+ ". Try with a more general query, or remove the year filter.".

(** The body of the [for idx, item in enumerate(results["items"])] loop. *)
Definition format_item (entry : Z * json) : Result string :=
  let '(idx, item) := entry in
  let? title := Py.get item "title" (JStr "No title") in
  let? link := Py.get item "link" (JStr "#") in
  Ok (PyStr.of_int (idx + 1) +:+ ". " +:+ Py.str link).

Fixpoint format_items (entries : list (Z * json)) : Result (list string) :=
  match entries with
  | [] => Ok []
  | entry :: rest =>
      let? formatted_result := format_item entry in
      let? web_snippets := format_items rest in
      Ok (formatted_result :: web_snippets)
  end.

Definition header : string := "## Search Results" +:+ PyStr.nl.

(** ["items" not in results or len(results["items"]) == 0] *)
Definition no_items (results : json) : Result bool :=
  let? has_items := Py.contains "items" results in
  if negb has_items then Ok true
  else let? items := Py.getitem results "items" in
       let? n := Py.len items in
       Ok (n =? 0).

(** What [forward] does with the parsed provider answer. *)
Definition render (query : string) (filter_year : option Z) (results : json)
  : Result string :=
  let? empty := no_items results in
  if empty : bool then Ok (no_results_message query filter_year)
  else
    let? items := Py.getitem results "items" in
    let? elems := Py.iter items in
    let? web_snippets := format_items (Py.enumerate elems) in
    Ok (header +:+ PyStr.join (PyStr.nl +:+ PyStr.nl) web_snippets).

(** [forward(self, query, filter_year=None)] *)
Definition forward (net : Network) (self : t) (query : string) (filter_year : option Z)
  : M string :=
  match api_key self with
  | None => raise (ValueError "Missing Google API key. Make sure you have 'GOOGLE_API_KEY' in your env variables.")
  | Some key =>
      match cx self with
      | None => raise (ValueError "Missing Custom Search Engine ID. Make sure you have 'GOOGLE_CSE_ID' in your env variables.")
      | Some cx_id =>
          let! results :=
            except_RequestException
              (let! response := Requests.get net (build_request key cx_id query filter_year) in
               let! _ := Requests.raise_for_status response in
               Requests.json response)
              (fun e => raise (ValueError
                 ("Error making request to Google Custom Search API: " +:+ e))) in
          lift (render query filter_year results)
      end
  end.

End GoogleSearchTool.

(** ** [class GooglePlacesTool] *)

(** [float(s)] *)
Definition py_float (s : string) : Result float :=
  match PyFloat.parse s with
  | Some x => Ok x
  | None => Raise (ValueError ("could not convert string to float: " +:+ PyStr.repr s))
  end.

(** [a, b = parts] *)
Definition unpack2 (parts : list string) : Result (string * string) :=
  match parts with
  | [a; b] => Ok (a, b)
  | _ :: _ :: _ :: _ => Raise (ValueError "too many values to unpack (expected 2)")
  | _ => Raise (ValueError ("not enough values to unpack (expected 2, got "
                            +:+ PyStr.of_int (Z.of_nat (length parts)) +:+ ")"))
  end.

(** A value that is [None] or a [float], as an f-string prints it. *)
Definition str_opt_float (x : option float) : string :=
  match x with
  | Some v => PyFloatRepr.repr v
  | None => "None"
  end.

Definition json_of_opt_string (s : option string) : json :=
  match s with
  | Some v => JStr v
  | None => JNull
  end.

Module GooglePlacesTool.

(** The value [_format_places] returns: the "no places" sentence or the
    list of per-place dictionaries. *)
Record PlaceRecord : Type := mkPlace {
  name : json;
  address : json;
  rating_info : string;
  place_id : json
}.

Inductive PlacesOutput : Type :=
| PlacesText (text : string)
| PlacesList (records : list PlaceRecord).

Record t : Type := mk {
  google_api_key : option string;
  API_TYPE : string;
  url : string;
  default_lat : float;
  default_lng : float;
  default_radius : Z
}.

(** [__init__(self, api_key=None)] *)
Definition __init__ (api_key : option string) : M t :=
  let! key := getenv "GOOGLE_API_KEY" api_key in
  let api_type := "textsearch" in
  ret {| google_api_key := key;
         API_TYPE := api_type;
         url := "https://maps.googleapis.com/maps/api/place/" +:+ api_type +:+ "/json";
         default_lat := 44.8176%float;
         default_lng := 20.4633%float;
         default_radius := 5000 |}.

(** The [try] block of [_parse_location]. *)
Definition parse_pair (location : string) : Result (float * float) :=
  let? parts := unpack2 (PyStr.split PyStr.comma location) in
  let? lat := py_float (PyStr.strip (fst parts)) in
  let? lng := py_float (PyStr.strip (snd parts)) in
  Ok (lat, lng).

(** [_parse_location(self, location)]: the [except (ValueError,
    TypeError): pass] falls through to the defaults. *)
Definition _parse_location (self : t) (location : option string) : Result (float * float) :=
  match location with
  | Some loc =>
      if negb (String.eqb loc "") && PyStr.has_char PyStr.comma loc then
        match parse_pair loc with
        | Ok coords => Ok coords
        | Raise (ValueError _) => Ok (default_lat self, default_lng self)
        | Raise TypeError => Ok (default_lat self, default_lng self)
        | Raise e => Raise e
        end
      else Ok (default_lat self, default_lng self)
  | None => Ok (default_lat self, default_lng self)
  end.

(** The two guards that open [_api_request]; the second one assigns to
    [lat], as the source does. *)
Definition default_coords (self : t) (lat lng : option float)
  : option float * option float :=
  let lat := match lat with None => Some (default_lat self) | Some _ => lat end in
  let lat := match lng with None => Some (default_lng self) | Some _ => lat end in
  (lat, lng).

Definition build_params (self : t) (query : string) (lat lng : option float) (radius : Z)
  : gmap string json :=
  let params : gmap string json := <["key" := json_of_opt_string (google_api_key self)]> ∅ in
  if String.eqb (API_TYPE self) "findplacefromtext" then
    <["locationbias" := JStr ("circle:" +:+ PyStr.of_int radius +:+ "@"
                              +:+ str_opt_float lat +:+ "," +:+ str_opt_float lng)]>
      (<["fields" := JStr "formatted_address,name,place_id,geometry,types,rating,user_ratings_total"]>
         (<["inputtype" := JStr "textquery"]> (<["input" := JStr query]> params)))
  else
    <["radius" := JInt radius]>
      (<["location" := JStr (str_opt_float lat +:+ "," +:+ str_opt_float lng)]>
         (<["query" := JStr query]> params)).

Definition build_request (self : t) (query : string) (lat lng : option float) (radius : Z)
  : Request :=
  {| req_url := url self;
     req_params := build_params self query lat lng radius;
     req_headers := None;
     req_timeout := Some 10 |}.

(** [_api_request(self, query, lat=None, lng=None, radius=5000)] *)
Definition _api_request (net : Network) (self : t) (query : string)
    (lat lng : option float) (radius : Z) : M json :=
  let '(lat, lng) := default_coords self lat lng in
  except_RequestException
    (let! response := Requests.get net (build_request self query lat lng radius) in
     let! _ := Requests.raise_for_status response in
     let! data := Requests.json response in
     let! _ := print (Py.str data) in
     if String.eqb (API_TYPE self) "findplacefromtext"
     then lift (Py.get data "candidates" (JArr []))
     else lift (Py.get data "results" (JArr [])))
    (fun e => raise (ValueError ("Error making request to Google Places API: " +:+ e))).

Definition no_places_message (query : string) (lat lng : float) (radius : Z) : string :=
  "No places found for '" +:+ query +:+ "' within " +:+ PyStr.of_int radius
  +:+ "m of coordinates " +:+ PyFloatRepr.repr lat +:+ "," +:+ PyFloatRepr.repr lng +:+ ".".

(** The body of the [for idx, place in enumerate(places)] loop. *)
Definition format_place (place : json) : Result PlaceRecord :=
  let? name := Py.get place "name" (JStr "Unnamed location") in
  let? address := Py.get place "formatted_address" (JStr "No address available") in
  let? place_id := Py.get place "place_id" (JStr "No ID") in
  let? has_rating := Py.contains "rating" place in
  let? rating_info :=
    (if has_rating : bool then
       let? rating := Py.get place "rating" (JInt 0) in
       let? total_ratings := Py.get place "user_ratings_total" (JInt 0) in
       Ok (PyStr.nl +:+ "Rating: " +:+ Py.str rating +:+ "/5 ("
           +:+ Py.str total_ratings +:+ " reviews)")
     else Ok "") in
  Ok {| name := name; address := address; rating_info := rating_info;
        place_id := place_id |}.

Fixpoint format_each (places : list json) : Result (list PlaceRecord) :=
  match places with
  | [] => Ok []
  | place :: rest =>
      let? record := format_place place in
      let? formatted_results := format_each rest in
      Ok (record :: formatted_results)
  end.

(** [_format_places(self, query, places, lat, lng, radius)] *)
Definition _format_places (self : t) (query : string) (places : json)
    (lat lng : float) (radius : Z) : Result PlacesOutput :=
  if negb (Py.truthy places) then
    Ok (PlacesText (no_places_message query lat lng radius))
  else
    let? elems := Py.iter places in
    let? formatted_results := format_each elems in
    Ok (PlacesList formatted_results).

(** [forward(self, query, location=None, radius=None)] *)
Definition forward (net : Network) (self : t) (query : string)
    (location : option string) (radius : option Z) : M PlacesOutput :=
  match google_api_key self with
  | None => raise (ValueError "Missing Google API key. Make sure you have 'GOOGLE_API_KEY' in your env variables.")
  | Some _ =>
      let! coords := lift (_parse_location self location) in
      let search_radius := match radius with
                           | Some r => r
                           | None => default_radius self
                           end in
      let! places := _api_request net self query (Some (fst coords)) (Some (snd coords))
                       search_radius in
      lift (_format_places self query places (fst coords) (snd coords) search_radius)
  end.

End GooglePlacesTool.

(** ** [get_place_working_hours] *)

Record Hours : Type := mkHours { open_time : json; close_time : json }.

Definition hours_endpoint : string := "https://maps.googleapis.com/maps/api/place/details/json".

Definition hours_request (place_id : string) (key : string) : Request :=
  let fields := "name,url,opening_hours" in
  {| req_url := hours_endpoint;
     req_params := <["key" := JStr key]>
                     (<["fields" := JStr fields]> (<["place_id" := JStr place_id]> ∅));
     req_headers := Some [];
     req_timeout := None |}.

(** [response['result']['opening_hours']['periods'][0]] *)
Definition first_period (response : json) : Result json :=
  let? result := Py.getitem response "result" in
  let? opening_hours := Py.getitem result "opening_hours" in
  let? periods := Py.getitem opening_hours "periods" in
  Py.getitem0 periods.

(** [{'open_time': hours['open']['time'], 'close_time': hours['close']['time']}] *)
Definition hours_record (hours : json) : Result Hours :=
  let? opening := Py.getitem hours "open" in
  let? t_open := Py.getitem opening "time" in
  let? closing := Py.getitem hours "close" in
  let? t_close := Py.getitem closing "time" in
  Ok {| open_time := t_open; close_time := t_close |}.

Definition get_place_working_hours (net : Network) (place_id : string) : M Hours :=
  let! google_api_key := environ_item "GOOGLE_API_KEY" in
  let! _ := print "name,url,opening_hours" in
  let! reply := Requests.get net (hours_request place_id google_api_key) in
  let! response := Requests.json reply in
  let! hours := lift (first_period response) in
  lift (hours_record hours).

(** ** Vocabulary of the statements *)

Definition missing_key_message : string :=
  "Missing Google API key. Make sure you have 'GOOGLE_API_KEY' in your env variables.".

Definition missing_cx_message : string :=
  "Missing Custom Search Engine ID. Make sure you have 'GOOGLE_CSE_ID' in your env variables.".

(** The configuration error of the adapters: the [ValueError] the two
    classes raise when a credential is [None]. *)
Definition ConfigurationError (e : exn) : Prop :=
  e = ValueError missing_key_message \/ e = ValueError missing_cx_message.

(** An access into a value of the wrong shape: [x[k]], [x[0]], [x.get]. *)
Definition structural_access_failure (e : exn) : bool :=
  match e with
  | KeyError _ | IndexError | TypeError | AttributeError => true
  | ValueError _ | RequestException _ => false
  end.

(** [sub] occurs in [s], verbatim. *)
Definition occurs_in (sub s : string) : Prop :=
  exists before after, s = before +:+ sub +:+ after.

(** [p] starts [s]. *)
Definition begins_with (p s : string) : Prop :=
  exists rest, s = p +:+ rest.

(** A status code [raise_for_status] lets through. *)
Definition status_ok (r : Response) : bool :=
  negb ((400 <=? status_code r) && (status_code r <? 600)).

(** The provider, asked [rq] in world [w], delivers the JSON value [v]
    under a status that is not an error. *)
Definition provider_returns (net : Network) (w : World) (rq : Request) (v : json) : Prop :=
  exists r, net (net_log w) rq = Delivered r /\ status_ok r = true /\ resp_json r = inr v.

(** The provider, asked [rq] in world [w], delivers a body that parses to
    [v], whatever the status. *)
Definition provider_body (net : Network) (w : World) (rq : Request) (v : json) : Prop :=
  exists r, net (net_log w) rq = Delivered r /\ resp_json r = inr v.

(** The world after one more request. *)
Definition logged (w : World) (rq : Request) : World :=
  {| environ := environ w; net_log := (net_log w ++ [rq])%list; stdout := stdout w |}.

Definition printed (w : World) (text : string) : World :=
  {| environ := environ w; net_log := net_log w;
     stdout := (stdout w ++ [text +:+ PyStr.nl])%list |}.

Definition is_object (v : json) : Prop :=
  match v with
  | JObj _ => True
  | _ => False
  end.

(** [sep] between every two neighbours of [l]. *)
Fixpoint riffle {A} (sep : A) (l : list A) : list A :=
  match l with
  | [] => []
  | [x] => [x]
  | x :: rest => x :: sep :: riffle sep rest
  end.

(** ** Sample worlds, tools and provider answers *)

Definition unconfigured_world : World :=
  {| environ := ∅; net_log := []; stdout := [] |}.

Definition silent_network : Network := fun _ _ => Failed "unreachable".

(** The text an item contributes after its number: [item.get("link", "#")]
    as the f-string prints it. *)
Definition link_text (item : json) : string :=
  match item with
  | JObj fields =>
      Py.str (match Py.dict_lookup "link" fields with
              | Some link => link
              | None => JStr "#"
              end)
  | _ => ""
  end.

(** The line [forward] writes for the item at 0-based position [idx]. *)
Definition numbered_line (entry : Z * json) : string :=
  PyStr.of_int (fst entry + 1) +:+ ". " +:+ link_text (snd entry).

Definition has_line_break (s : string) : bool := PyStr.has_char (ascii_of_nat 10) s.

Definition search_tool : GoogleSearchTool.t :=
  {| GoogleSearchTool.api_key := Some "AIza-key"; GoogleSearchTool.cx := Some "cse-id" |}.

(** A provider that answers every request with [v] under status 200. *)
Definition answering (v : json) : Network :=
  fun _ _ => Delivered {| status_code := 200; reason := "OK";
                          resp_url := ""; resp_json := inr v |}.

Definition single_item_answer : json :=
  JObj [("items", JArr [JObj [("title", JStr "A"); ("link", JStr "https://example.org/a")]])].

Definition two_items_answer : json :=
  JObj [("items", JArr [JObj [("title", JStr "A"); ("link", JStr "https://example.org/a")];
                        JObj [("title", JStr "B")]])].

Definition configured_world : World :=
  {| environ := {["GOOGLE_API_KEY" := "AIza-key"]}; net_log := []; stdout := [] |}.

(** The shapes of a details answer that the hours lookup trips over:
    [opening_hours.periods] is the empty list, or the place has no
    [opening_hours] at all. *)
Definition empty_periods (response : json) : Prop :=
  exists top result opening_hours,
    response = JObj top
    /\ Py.dict_lookup "result" top = Some (JObj result)
    /\ Py.dict_lookup "opening_hours" result = Some (JObj opening_hours)
    /\ Py.dict_lookup "periods" opening_hours = Some (JArr []).

Definition no_opening_hours (response : json) : Prop :=
  exists top result,
    response = JObj top
    /\ Py.dict_lookup "result" top = Some (JObj result)
    /\ Py.dict_lookup "opening_hours" result = None.

Definition closed_place_answer : json :=
  JObj [("result", JObj [("name", JStr "Lorenzo & Kakalamba");
                          ("opening_hours", JObj [("open_now", JBool false);
                                                  ("periods", JArr [])])]);
        ("status", JStr "OK")].

Definition no_hours_answer : json :=
  JObj [("result", JObj [("name", JStr "Lorenzo & Kakalamba")]); ("status", JStr "OK")].

(** The requests a computation issues, in order, whatever world it starts
    from and whether it returns or raises. *)
Definition issues {A} (m : M A) (rqs : list Request) : Prop :=
  forall w, net_log (snd (m w)) = (net_log w ++ rqs)%list.

Definition places_tool : GooglePlacesTool.t :=
  {| GooglePlacesTool.google_api_key := Some "AIza-key";
     GooglePlacesTool.API_TYPE := "textsearch";
     GooglePlacesTool.url := "https://maps.googleapis.com/maps/api/place/textsearch/json";
     GooglePlacesTool.default_lat := 44.8176%float;
     GooglePlacesTool.default_lng := 20.4633%float;
     GooglePlacesTool.default_radius := 5000 |}.

(** The review count of a place as the rating summary prints it:
    [place.get("user_ratings_total", 0)]. *)
Definition review_count (fields : list (string * json)) : json :=
  match Py.dict_lookup "user_ratings_total" fields with
  | Some n => n
  | None => JInt 0
  end.

(** What the rating summary of the record [r] made from [place] must be. *)
Definition rating_summary_of (place : json) (r : GooglePlacesTool.PlaceRecord) : Prop :=
  match place with
  | JObj fields =>
      match Py.dict_lookup "rating" fields with
      | None => GooglePlacesTool.rating_info r = ""
      | Some rating =>
          GooglePlacesTool.rating_info r
          = PyStr.nl +:+ "Rating: " +:+ Py.str rating +:+ "/5 ("
            +:+ Py.str (review_count fields) +:+ " reviews)"
      end
  | _ => False
  end.


Definition rated_place : json :=
  JObj [("name", JStr "Salon 1905"); ("formatted_address", JStr "Karadjordjeva 48, Beograd");
        ("place_id", JStr "ChIJj61dQgK6j4AR4GeTYWZsKWw");
        ("rating", JFloat 4.5%float); ("user_ratings_total", JInt 1280)].

Definition unrated_place : json :=
  JObj [("name", JStr "Enso"); ("place_id", JStr "ChIJ0000")].

Definition two_places_answer : json :=
  JObj [("results", JArr [rated_place; unrated_place]); ("status", JStr "OK")].

(** The result of [m] does not depend on the world it runs in. *)
Definition world_blind {A} (m : M A) : Prop :=
  forall w w', fst (m w) = fst (m w').

Definition both_configured_world : World :=
  {| environ := <["GOOGLE_CSE_ID" := "env-cse-id"]> {["GOOGLE_API_KEY" := "env-key"]};
     net_log := []; stdout := [] |}.

(** A provider that answers the first request with [v] and times out on
    every later one. *)
Definition answering_once (v : json) : Network :=
  fun history _ =>
    match history with
    | [] => Delivered {| status_code := 200; reason := "OK";
                         resp_url := ""; resp_json := inr v |}
    | _ :: _ => Failed "Read timed out."
    end.

(** How often [c] occurs in [s]: [s.count(c)]. *)
Fixpoint count_char (c : ascii) (s : string) : nat :=
  match s with
  | EmptyString => O
  | String x s' => (if Ascii.eqb x c then 1 else 0)%nat + count_char c s'
  end.

(** [m] touches neither the environment nor standard output. *)
Definition quiet {A} (m : M A) : Prop :=
  forall w, environ (snd (m w)) = environ w /\ stdout (snd (m w)) = stdout w.

Definition search_error_prefix : string :=
  "Error making request to Google Custom Search API: ".

Definition places_error_prefix : string :=
  "Error making request to Google Places API: ".

(** A provider that refuses every connection. *)
Definition refusing (msg : string) : Network := fun _ _ => Failed msg.

(** A provider that answers every request with [v] under [status]. *)
Definition answering_with (status : Z) (reason_text : string) (v : json) : Network :=
  fun _ _ => Delivered {| status_code := status; reason := reason_text;
                          resp_url := "https://maps.googleapis.com/";
                          resp_json := inr v |}.

Definition split_shift_answer : json :=
  JObj [("result",
         JObj [("opening_hours",
                JObj [("periods",
                       JArr [JObj [("open", JObj [("day", JInt 1); ("time", JStr "1200")]);
                                   ("close", JObj [("day", JInt 1); ("time", JStr "1500")])];
                             JObj [("open", JObj [("day", JInt 1); ("time", JStr "1800")]);
                                   ("close", JObj [("day", JInt 1); ("time", JStr "2300")])]])])])].

Definition always_open_answer : json :=
  JObj [("result",
         JObj [("opening_hours",
                JObj [("periods",
                       JArr [JObj [("open", JObj [("day", JInt 0); ("time", JStr "0000")])]])])])].

Definition denied_answer : json :=
  JObj [("error_message", JStr "The provided API key is invalid."); ("status", JStr "REQUEST_DENIED")].

(** [place.get(key, placeholder)] on the fields of a place. *)
Definition field_or (fields : list (string * json)) (key placeholder : string) : json :=
  match Py.dict_lookup key fields with
  | Some v => v
  | None => JStr placeholder
  end.

(** The key under which the Places answer lists its places, by mode. *)
Definition places_key (self : GooglePlacesTool.t) : string :=
  if String.eqb (GooglePlacesTool.API_TYPE self) "findplacefromtext"
  then "candidates" else "results".

Definition search_radius_of (self : GooglePlacesTool.t) (radius : option Z) : Z :=
  match radius with
  | Some r => r
  | None => GooglePlacesTool.default_radius self
  end.

(** The details answer lists [periods] under [result.opening_hours]. *)
Definition periods_of (response : json) (periods : list json) : Prop :=
  exists top result opening_hours,
    response = JObj top
    /\ Py.dict_lookup "result" top = Some (JObj result)
    /\ Py.dict_lookup "opening_hours" result = Some (JObj opening_hours)
    /\ Py.dict_lookup "periods" opening_hours = Some (JArr periods).

(** [period['open']['time']] is [t]. *)
Definition opens_at (period : json) (t : json) : Prop :=
  exists fields opening,
    period = JObj fields
    /\ Py.dict_lookup "open" fields = Some (JObj opening)
    /\ Py.dict_lookup "time" opening = Some t.

(** [period['close']['time']] is [t]. *)
Definition closes_at (period : json) (t : json) : Prop :=
  exists fields closing,
    period = JObj fields
    /\ Py.dict_lookup "close" fields = Some (JObj closing)
    /\ Py.dict_lookup "time" closing = Some t.

(** The period has no ["close"] entry (a place that never closes). *)
Definition never_closes (period : json) : Prop :=
  exists fields, period = JObj fields /\ Py.dict_lookup "close" fields = None.

(** The world [w] with another environment. *)
Definition with_environ (env : gmap string string) (w : World) : World :=
  {| environ := env; net_log := net_log w; stdout := stdout w |}.

Definition candidate_tool : GooglePlacesTool.t :=
  {| GooglePlacesTool.google_api_key := Some "AIza-key";
     GooglePlacesTool.API_TYPE := "findplacefromtext";
     GooglePlacesTool.url := "https://maps.googleapis.com/maps/api/place/textsearch/json";
     GooglePlacesTool.default_lat := 44.8176%float;
     GooglePlacesTool.default_lng := 20.4633%float;
     GooglePlacesTool.default_radius := 5000 |}.

Definition candidates_answer : json :=
  JObj [("candidates", JArr [unrated_place]); ("results", JArr [rated_place; unrated_place])].

(** * Properties *)

(** ** Running the monad *)

Lemma bind_ok {A B} (m : M A) (k : A -> M B) w a w' :
  m w = (Ok a, w') -> bind m k w = k a w'.
Proof. intros H. unfold bind. now rewrite H. Qed.

Lemma bind_raise {A B} (m : M A) (k : A -> M B) w e w' :
  m w = (Raise e, w') -> bind m k w = (Raise e, w').
Proof. intros H. unfold bind. now rewrite H. Qed.

Lemma requests_get_delivered net rq w r :
  net (net_log w) rq = Delivered r -> Requests.get net rq w = (Ok r, logged w rq).
Proof. intros H. unfold Requests.get. now rewrite H. Qed.

Lemma requests_get_logs net rq w :
  snd (Requests.get net rq w) = logged w rq.
Proof. unfold Requests.get. now destruct (net (net_log w) rq). Qed.

Lemma raise_for_status_ok r w :
  status_ok r = true -> Requests.raise_for_status r w = (Ok tt, w).
Proof.
  unfold status_ok, Requests.raise_for_status. intros H.
  destruct (400 <=? status_code r) eqn:Hlo; destruct (status_code r <? 500) eqn:H5;
    destruct (status_code r <? 600) eqn:H6; simpl in *; try discriminate; try reflexivity;
    destruct (500 <=? status_code r) eqn:H7; simpl; try reflexivity; lia.
Qed.

(** The [try] block shared by the two classes, when the provider delivers
    a JSON value under a good status. *)
Lemma fetch_returns net rq w v :
  provider_returns net w rq v ->
  (let! response := Requests.get net rq in
   let! _ := Requests.raise_for_status response in
   Requests.json response) w = (Ok v, logged w rq).
Proof.
  intros (r & Hnet & Hst & Hjs).
  rewrite (bind_ok _ _ _ _ _ (requests_get_delivered _ _ _ _ Hnet)).
  rewrite (bind_ok _ _ _ _ _ (raise_for_status_ok _ _ Hst)).
  unfold Requests.json. now rewrite Hjs.
Qed.

(** ** Missing credentials (the two classes) *)

Lemma search_forward_without_credentials net self query filter_year w :
  GoogleSearchTool.api_key self = None \/ GoogleSearchTool.cx self = None ->
  exists e, GoogleSearchTool.forward net self query filter_year w = (Raise e, w)
            /\ ConfigurationError e.
Proof.
  unfold GoogleSearchTool.forward, ConfigurationError. intros [H | H].
  - rewrite H. eexists. split; [reflexivity | now left].
  - rewrite H. destruct (GoogleSearchTool.api_key self).
    + eexists. split; [reflexivity | now right].
    + eexists. split; [reflexivity | now left].
Qed.

Lemma places_forward_without_credentials net self query location radius w :
  GooglePlacesTool.google_api_key self = None ->
  exists e, GooglePlacesTool.forward net self query location radius w = (Raise e, w)
            /\ ConfigurationError e.
Proof.
  unfold GooglePlacesTool.forward, ConfigurationError. intros H. rewrite H.
  eexists. split; [reflexivity | now left].
Qed.

(** A credential nobody configured stays [None] in the constructed tool. *)
Lemma search_init_unconfigured w :
  environ w !! "GOOGLE_API_KEY" = None ->
  exists self, GoogleSearchTool.__init__ None None w = (Ok self, w)
               /\ GoogleSearchTool.api_key self = None.
Proof.
  intros H. eexists. split.
  - unfold GoogleSearchTool.__init__, bind, environ_get, ret. reflexivity.
  - simpl. exact H.
Qed.

Lemma places_init_unconfigured w :
  environ w !! "GOOGLE_API_KEY" = None ->
  exists self, GooglePlacesTool.__init__ None w = (Ok self, w)
               /\ GooglePlacesTool.google_api_key self = None.
Proof.
  intros H. eexists. split.
  - unfold GooglePlacesTool.__init__, bind, getenv, ret. reflexivity.
  - simpl. now rewrite H.
Qed.

(** C1, at the hours lookup.  With [GOOGLE_API_KEY] unset,
    [get_place_working_hours] issues no request and prints nothing, as the
    claim says, but what it raises is the [KeyError] of the bare
    [os.environ['GOOGLE_API_KEY']], not the configuration error that the
    two classes raise for the same situation. *)
Theorem hours_without_key_raises_KeyError net place_id w :
  environ w !! "GOOGLE_API_KEY" = None ->
  get_place_working_hours net place_id w = (Raise (KeyError (JStr "GOOGLE_API_KEY")), w)
  /\ ~ ConfigurationError (KeyError (JStr "GOOGLE_API_KEY")).
Proof.
  intros H. split.
  - unfold get_place_working_hours, bind, environ_item. now rewrite H.
  - intros [E | E]; discriminate E.
Qed.

Lemma hours_without_key_witness :
  get_place_working_hours silent_network "ChIJj61dQgK6j4AR4GeTYWZsKWw" unconfigured_world
  = (Raise (KeyError (JStr "GOOGLE_API_KEY")), unconfigured_world)
  /\ ~ ConfigurationError (KeyError (JStr "GOOGLE_API_KEY")).
Proof.
  apply (hours_without_key_raises_KeyError silent_network
           "ChIJj61dQgK6j4AR4GeTYWZsKWw" unconfigured_world).
  reflexivity.
Defined.

Lemma except_ok {A} (body : M A) handler w v w' :
  body w = (Ok v, w') -> except_RequestException body handler w = (Ok v, w').
Proof. intros H. unfold except_RequestException. now rewrite H. Qed.

Lemma append_assoc (a b c : string) : (a +:+ b) +:+ c = a +:+ b +:+ c.
Proof.
  induction a as [| x a IH]; [reflexivity |].
  change (String x ((a +:+ b) +:+ c) = String x (a +:+ b +:+ c)). now rewrite IH.
Qed.

(** ** Web search: no items *)

Lemma no_items_absent fields :
  Py.dict_lookup "items" fields = None ->
  GoogleSearchTool.no_items (JObj fields) = Ok true.
Proof. intros H. unfold GoogleSearchTool.no_items. simpl. now rewrite H. Qed.

Lemma no_items_empty fields :
  Py.dict_lookup "items" fields = Some (JArr []) ->
  GoogleSearchTool.no_items (JObj fields) = Ok true.
Proof. intros H. unfold GoogleSearchTool.no_items. simpl. now rewrite H. Qed.

Lemma search_forward_delivered net self query filter_year w key cx_id results :
  GoogleSearchTool.api_key self = Some key ->
  GoogleSearchTool.cx self = Some cx_id ->
  provider_returns net w (GoogleSearchTool.build_request key cx_id query filter_year) results ->
  GoogleSearchTool.forward net self query filter_year w
  = (GoogleSearchTool.render query filter_year results,
     logged w (GoogleSearchTool.build_request key cx_id query filter_year)).
Proof.
  intros Hk Hc Hp. unfold GoogleSearchTool.forward. rewrite Hk, Hc.
  erewrite bind_ok; [| apply except_ok; apply fetch_returns; exact Hp].
  reflexivity.
Qed.

(** C5.  When the provider answers with an object that has no ["items"]
    key, or whose ["items"] is the empty list, [forward] returns the "No
    results found" sentence: it quotes the query verbatim and, when a
    [filter_year] was given, names that year. *)
Theorem search_zero_items_message net self query filter_year w key cx_id fields :
  GoogleSearchTool.api_key self = Some key ->
  GoogleSearchTool.cx self = Some cx_id ->
  provider_returns net w (GoogleSearchTool.build_request key cx_id query filter_year)
    (JObj fields) ->
  Py.dict_lookup "items" fields = None \/ Py.dict_lookup "items" fields = Some (JArr []) ->
  fst (GoogleSearchTool.forward net self query filter_year w)
  = Ok (GoogleSearchTool.no_results_message query filter_year)
  /\ GoogleSearchTool.no_results_message query filter_year
     = "No results found for '" +:+ query +:+ "'"
       +:+ match filter_year with
           | Some y => " with filter year=" +:+ PyStr.of_int y
           | None => ""
           end
       +:+ ". Try with a more general query, or remove the year filter."
  /\ occurs_in query (GoogleSearchTool.no_results_message query filter_year)
  /\ (forall y, filter_year = Some y ->
        occurs_in (" with filter year=" +:+ PyStr.of_int y)
          (GoogleSearchTool.no_results_message query filter_year)).
Proof.
  intros Hk Hc Hp Hitems. repeat split.
  - rewrite (search_forward_delivered _ _ _ _ _ _ _ _ Hk Hc Hp). simpl.
    unfold GoogleSearchTool.render.
    assert (GoogleSearchTool.no_items (JObj fields) = Ok true) as ->.
    { destruct Hitems; [now apply no_items_absent | now apply no_items_empty]. }
    reflexivity.
  - exists "No results found for '". eexists. reflexivity.
  - intros y ->. exists ("No results found for '" +:+ query +:+ "'").
    exists ". Try with a more general query, or remove the year filter.".
    unfold GoogleSearchTool.no_results_message.
    now rewrite !append_assoc.
Qed.

Lemma search_zero_items_witness :
  fst (GoogleSearchTool.forward (answering (JObj [])) search_tool "pont des arts" (Some 2024)
         unconfigured_world)
  = Ok "No results found for 'pont des arts' with filter year=2024. Try with a more general query, or remove the year filter.".
Proof.
  destruct (search_zero_items_message (answering (JObj [])) search_tool "pont des arts"
              (Some 2024) unconfigured_world "AIza-key" "cse-id" []) as [H _].
  - reflexivity.
  - reflexivity.
  - eexists. split; [reflexivity | split; reflexivity].
  - left. reflexivity.
  - exact H.
Defined.

(** ** Web search: the numbered list *)

Lemma has_char_append c (a b : string) :
  PyStr.has_char c (a +:+ b) = PyStr.has_char c a || PyStr.has_char c b.
Proof.
  induction a as [| x a IH]; [reflexivity |].
  change (PyStr.has_char c (String x (a +:+ b))
          = PyStr.has_char c (String x a) || PyStr.has_char c b).
  simpl. destruct (Ascii.eqb x c); [reflexivity | exact IH].
Qed.

Lemma uint_no_line_break d : has_line_break (NilEmpty.string_of_uint d) = false.
Proof. induction d; simpl; auto. Qed.

Lemma of_int_no_line_break n : has_line_break (PyStr.of_int n) = false.
Proof.
  unfold PyStr.of_int, NilZero.string_of_int, NilZero.string_of_uint.
  destruct (Z.to_int n) as [d | d]; destruct d; try reflexivity;
    try apply (uint_no_line_break (Decimal.D0 _)); simpl; now rewrite ?uint_no_line_break.
Qed.

Lemma numbered_line_no_line_break entry :
  has_line_break (link_text (snd entry)) = false ->
  has_line_break (numbered_line entry) = false.
Proof.
  intros H. unfold numbered_line, has_line_break in *.
  rewrite !has_char_append, H. fold (has_line_break (PyStr.of_int (fst entry + 1))).
  now rewrite of_int_no_line_break.
Qed.

Lemma split_no_sep sep s : PyStr.has_char sep s = false -> PyStr.split sep s = [s].
Proof.
  induction s as [| c s IH]; [reflexivity |]. simpl.
  destruct (Ascii.eqb c sep); [discriminate |]. intros H. now rewrite (IH H).
Qed.

Lemma split_append_sep sep (a b : string) :
  PyStr.has_char sep a = false ->
  PyStr.split sep (a +:+ String sep b) = a :: PyStr.split sep b.
Proof.
  induction a as [| c a IH]; intros H.
  - change (PyStr.split sep (String sep b) = "" :: PyStr.split sep b).
    simpl. now rewrite Ascii.eqb_refl.
  - change (PyStr.split sep (String c (a +:+ String sep b)) = String c a :: PyStr.split sep b).
    simpl in *. destruct (Ascii.eqb c sep); [discriminate |]. now rewrite (IH H).
Qed.

Lemma lines_join entries :
  entries <> [] ->
  Forall (fun e => has_line_break e = false) entries ->
  PyStr.lines (PyStr.join (PyStr.nl +:+ PyStr.nl) entries) = riffle "" entries.
Proof.
  unfold PyStr.lines, has_line_break.
  induction entries as [| e rest IH]; [congruence |]. intros _ Hall.
  inversion_clear Hall as [| ? ? He Hrest]. destruct rest as [| e' rest'].
  - simpl. now apply split_no_sep.
  - change (PyStr.split (ascii_of_nat 10)
              (e +:+ String (ascii_of_nat 10)
                       (String (ascii_of_nat 10) (PyStr.join (PyStr.nl +:+ PyStr.nl) (e' :: rest'))))
            = e :: "" :: riffle "" (e' :: rest')).
    rewrite (split_append_sep _ _ _ He).
    change (String (ascii_of_nat 10) (PyStr.join (PyStr.nl +:+ PyStr.nl) (e' :: rest')))
      with ("" +:+ String (ascii_of_nat 10) (PyStr.join (PyStr.nl +:+ PyStr.nl) (e' :: rest'))).
    rewrite split_append_sep by reflexivity.
    rewrite IH; [reflexivity | discriminate | exact Hrest].
Qed.

Lemma format_items_objects start items :
  Forall is_object items ->
  GoogleSearchTool.format_items (Py.enumerate_from start items)
  = Ok (map numbered_line (Py.enumerate_from start items)).
Proof.
  intros Hobj. revert start.
  induction Hobj as [| item rest Hitem _ IH]; intros start; [reflexivity |].
  destruct item; try contradiction. simpl.
  rewrite IH. reflexivity.
Qed.

Lemma enumerate_from_length {A} start (l : list A) :
  length (Py.enumerate_from start l) = length l.
Proof. revert start. induction l as [| x l IH]; intros start; simpl; [reflexivity | now rewrite IH]. Qed.

Lemma enumerate_from_lookup {A} start (l : list A) (i : nat) x :
  l !! i = Some x -> Py.enumerate_from start l !! i = Some (start + Z.of_nat i, x).
Proof.
  revert start i. induction l as [| y l IH]; intros start i H; [discriminate |].
  destruct i as [| i].
  - simpl in *. injection H as ->. now rewrite Z.add_0_r.
  - simpl in *. rewrite (IH (start + 1) i H). do 2 f_equal. lia.
Qed.

Lemma no_items_nonempty fields item rest :
  Py.dict_lookup "items" fields = Some (JArr (item :: rest)) ->
  GoogleSearchTool.no_items (JObj fields) = Ok false.
Proof. intros H. unfold GoogleSearchTool.no_items. simpl. rewrite H. simpl. reflexivity. Qed.

Lemma numbered_lines_no_line_break start items :
  Forall (fun item => has_line_break (link_text item) = false) items ->
  Forall (fun e => has_line_break e = false)
    (map numbered_line (Py.enumerate_from start items)).
Proof.
  intros Hall. revert start.
  induction Hall as [| item rest Hitem _ IH]; intros start; simpl; constructor.
  - now apply numbered_line_no_line_break.
  - apply IH.
Qed.

Lemma render_items query filter_year fields items web_snippets :
  Py.dict_lookup "items" fields = Some (JArr items) ->
  items <> [] ->
  GoogleSearchTool.format_items (Py.enumerate items) = Ok web_snippets ->
  GoogleSearchTool.render query filter_year (JObj fields)
  = Ok (GoogleSearchTool.header +:+ PyStr.join (PyStr.nl +:+ PyStr.nl) web_snippets).
Proof.
  intros Hitems Hne Hfmt. unfold GoogleSearchTool.render.
  destruct items as [| item rest]; [congruence |].
  rewrite (no_items_nonempty _ _ _ Hitems). unfold rbind at 1.
  unfold Py.getitem. rewrite Hitems. unfold rbind at 1, Py.iter. unfold rbind at 1.
  now rewrite Hfmt.
Qed.

(** C3, as the code has it.  For a provider answer with [N >= 1] items
    (JSON objects), the output is the header line [## Search Results]
    followed by [N] numbered lines, one per item and in their order; line
    [i] (1-based) is [i. ] followed by the item's link.  The numbered lines
    are joined by a blank line, so, when no link text holds a line break,
    the output splits into the header, then the [N] numbered lines with one
    empty line between neighbours. *)
Theorem search_numbered_lines net self query filter_year w key cx_id fields items :
  GoogleSearchTool.api_key self = Some key ->
  GoogleSearchTool.cx self = Some cx_id ->
  provider_returns net w (GoogleSearchTool.build_request key cx_id query filter_year)
    (JObj fields) ->
  Py.dict_lookup "items" fields = Some (JArr items) ->
  items <> [] ->
  Forall is_object items ->
  exists entries,
    fst (GoogleSearchTool.forward net self query filter_year w)
    = Ok ("## Search Results" +:+ PyStr.nl +:+ PyStr.join (PyStr.nl +:+ PyStr.nl) entries)
    /\ length entries = length items
    /\ (forall (i : nat) item, items !! i = Some item ->
          entries !! i = Some (PyStr.of_int (Z.of_nat i + 1) +:+ ". " +:+ link_text item))
    /\ (Forall (fun item => has_line_break (link_text item) = false) items ->
          PyStr.lines ("## Search Results" +:+ PyStr.nl
                       +:+ PyStr.join (PyStr.nl +:+ PyStr.nl) entries)
          = "## Search Results" :: riffle "" entries).
Proof.
  intros Hk Hc Hp Hitems Hne Hobj.
  exists (map numbered_line (Py.enumerate items)). repeat split.
  - rewrite (search_forward_delivered _ _ _ _ _ _ _ _ Hk Hc Hp). simpl.
    rewrite (render_items _ _ _ _ _ Hitems Hne (format_items_objects 0 items Hobj)).
    unfold GoogleSearchTool.header. now rewrite append_assoc.
  - rewrite length_map. apply enumerate_from_length.
  - intros i item Hi. rewrite list_lookup_fmap. unfold Py.enumerate.
    rewrite (enumerate_from_lookup 0 items i item Hi). reflexivity.
  - intros Hlinks. unfold PyStr.lines, PyStr.nl at 1.
    change ("## Search Results" +:+ String (ascii_of_nat 10) "" +:+ ?rest)
      with ("## Search Results" +:+ String (ascii_of_nat 10) rest).
    rewrite split_append_sep by reflexivity. f_equal.
    apply lines_join.
    + destruct items; [congruence | discriminate].
    + now apply numbered_lines_no_line_break.
Qed.

Lemma search_numbered_lines_witness :
  exists entries,
    fst (GoogleSearchTool.forward (answering two_items_answer) search_tool "pont des arts" None
           unconfigured_world)
    = Ok ("## Search Results" +:+ PyStr.nl +:+ PyStr.join (PyStr.nl +:+ PyStr.nl) entries)
    /\ length entries = 2%nat
    /\ entries !! 1%nat = Some "2. #".
Proof.
  destruct (search_numbered_lines (answering two_items_answer) search_tool "pont des arts" None
              unconfigured_world "AIza-key" "cse-id"
              [("items", JArr [JObj [("title", JStr "A"); ("link", JStr "https://example.org/a")];
                               JObj [("title", JStr "B")]])]
              [JObj [("title", JStr "A"); ("link", JStr "https://example.org/a")];
               JObj [("title", JStr "B")]])
    as (entries & Hout & Hlen & Hnth & _).
  - reflexivity.
  - reflexivity.
  - eexists. split; [reflexivity | split; reflexivity].
  - reflexivity.
  - discriminate.
  - repeat constructor.
  - exists entries. split; [exact Hout | split; [exact Hlen |]].
    exact (Hnth 1%nat (JObj [("title", JStr "B")]) eq_refl).
Defined.

(** C3 as worded does not hold: with one item the output has two lines,
    and its first line is the header, not [1.]. *)
Lemma search_single_item_output_has_two_lines :
  exists out,
    fst (GoogleSearchTool.forward (answering single_item_answer) search_tool "pont des arts"
           None unconfigured_world) = Ok out
    /\ PyStr.lines out = ["## Search Results"; "1. https://example.org/a"]
    /\ length (PyStr.lines out) <> 1%nat
    /\ ~ begins_with "1." "## Search Results".
Proof.
  eexists. split; [vm_compute; reflexivity |]. split; [vm_compute; reflexivity |].
  split; [vm_compute; discriminate |].
  intros [rest H]. vm_compute in H. discriminate H.
Qed.

(** ** Hours lookup *)

Lemma hours_delivered net place_id w key response :
  environ w !! "GOOGLE_API_KEY" = Some key ->
  provider_body net w (hours_request place_id key) response ->
  get_place_working_hours net place_id w
  = (rbind (first_period response) hours_record,
     logged (printed w "name,url,opening_hours") (hours_request place_id key)).
Proof.
  intros Hkey (r & Hnet & Hjs). unfold get_place_working_hours.
  erewrite bind_ok; [| unfold environ_item; rewrite Hkey; reflexivity].
  erewrite bind_ok; [| reflexivity].
  erewrite bind_ok; [| apply requests_get_delivered; exact Hnet].
  erewrite bind_ok; [| unfold Requests.json; rewrite Hjs; reflexivity].
  unfold bind, lift, rbind. now destruct (first_period response).
Qed.

Lemma first_period_empty response :
  empty_periods response -> first_period response = Raise IndexError.
Proof.
  intros (top & result & oh & -> & Hres & Hoh & Hper).
  unfold first_period, rbind, Py.getitem. now rewrite Hres, Hoh, Hper.
Qed.

Lemma first_period_no_hours response :
  no_opening_hours response ->
  first_period response = Raise (KeyError (JStr "opening_hours")).
Proof.
  intros (top & result & -> & Hres & Hoh).
  unfold first_period, rbind, Py.getitem. now rewrite Hres, Hoh.
Qed.

(** C2, as the code has it.  With the key configured and a details answer
    whose [opening_hours.periods] is empty, the lookup (after its one
    request) fails with the [IndexError] of the unguarded [periods[0]];
    when [opening_hours] is absent it fails with [KeyError('opening_hours')].
    Both are plain structural-access failures: the function has no
    not-found error of its own. *)
Theorem hours_without_periods_fails_structurally net place_id w key response :
  environ w !! "GOOGLE_API_KEY" = Some key ->
  provider_body net w (hours_request place_id key) response ->
  (empty_periods response ->
     fst (get_place_working_hours net place_id w) = Raise IndexError
     /\ structural_access_failure IndexError = true)
  /\ (no_opening_hours response ->
        fst (get_place_working_hours net place_id w) = Raise (KeyError (JStr "opening_hours"))
        /\ structural_access_failure (KeyError (JStr "opening_hours")) = true).
Proof.
  intros Hkey Hbody. rewrite (hours_delivered _ _ _ _ _ Hkey Hbody). simpl. split.
  - intros H. now rewrite (first_period_empty _ H).
  - intros H. now rewrite (first_period_no_hours _ H).
Qed.

Lemma hours_without_periods_witness :
  fst (get_place_working_hours (answering no_hours_answer) "ChIJj61dQgK6j4AR4GeTYWZsKWw"
         configured_world)
  = Raise (KeyError (JStr "opening_hours")).
Proof.
  destruct (hours_without_periods_fails_structurally (answering no_hours_answer)
              "ChIJj61dQgK6j4AR4GeTYWZsKWw" configured_world "AIza-key" no_hours_answer)
    as [_ H].
  - reflexivity.
  - eexists. split; reflexivity.
  - apply H. eexists. eexists. split; [reflexivity | split; reflexivity].
Defined.

(** C2 as worded does not hold: an empty [periods] list ends in an
    [IndexError], which is a structural-access failure. *)
Lemma hours_empty_periods_raises_IndexError :
  fst (get_place_working_hours (answering closed_place_answer) "ChIJj61dQgK6j4AR4GeTYWZsKWw"
         configured_world)
  = Raise IndexError
  /\ structural_access_failure IndexError = true
  /\ empty_periods closed_place_answer.
Proof.
  split; [vm_compute; reflexivity |]. split; [reflexivity |].
  do 3 eexists. split; [reflexivity |]. split; [reflexivity |]. split; reflexivity.
Qed.

(** ** Places: parsing the location *)

Lemma places_init_defaults api_key w :
  exists self, GooglePlacesTool.__init__ api_key w = (Ok self, w)
               /\ GooglePlacesTool.default_lat self = 44.8176%float
               /\ GooglePlacesTool.default_lng self = 20.4633%float
               /\ GooglePlacesTool.default_radius self = 5000.
Proof.
  eexists. split; [unfold GooglePlacesTool.__init__, bind, getenv, ret; reflexivity |].
  repeat split.
Qed.

(** The [try] block can only fail with a [ValueError]. *)
Lemma parse_pair_raises_ValueError loc e :
  GooglePlacesTool.parse_pair loc = Raise e -> exists msg, e = ValueError msg.
Proof.
  unfold GooglePlacesTool.parse_pair, rbind, unpack2, py_float.
  destruct (PyStr.split PyStr.comma loc) as [| a [| b [| c rest]]];
    try (intros [= <-]; eexists; reflexivity).
  simpl. destruct (PyFloat.parse (PyStr.strip a)); [| intros [= <-]; eexists; reflexivity].
  destruct (PyFloat.parse (PyStr.strip b)); [discriminate | intros [= <-]; eexists; reflexivity].
Qed.

(** [_parse_location] never raises: it returns the parsed pair or the
    defaults. *)
Lemma parse_location_total self location :
  exists lat lng, GooglePlacesTool._parse_location self location = Ok (lat, lng).
Proof.
  unfold GooglePlacesTool._parse_location.
  destruct location as [loc |]; [| eauto].
  destruct (negb (String.eqb loc "") && PyStr.has_char PyStr.comma loc); [| eauto].
  destruct (GooglePlacesTool.parse_pair loc) as [[lat lng] | e] eqn:Hp; [eauto |].
  destruct (parse_pair_raises_ValueError _ _ Hp) as [msg ->]. eauto.
Qed.

Lemma parse_location_fallback self loc :
  (forall a b, PyStr.split PyStr.comma loc = [a; b] ->
     PyFloat.parse (PyStr.strip a) = None \/ PyFloat.parse (PyStr.strip b) = None) ->
  GooglePlacesTool._parse_location self (Some loc)
  = Ok (GooglePlacesTool.default_lat self, GooglePlacesTool.default_lng self).
Proof.
  intros Hbad. unfold GooglePlacesTool._parse_location.
  destruct (negb (String.eqb loc "") && PyStr.has_char PyStr.comma loc); [| reflexivity].
  destruct (GooglePlacesTool.parse_pair loc) as [[lat lng] | e] eqn:Hp.
  - exfalso. revert Hp. unfold GooglePlacesTool.parse_pair, rbind, unpack2, py_float.
    destruct (PyStr.split PyStr.comma loc) as [| a [| b [| c rest]]]; try discriminate.
    destruct (Hbad a b eq_refl) as [Ha | Hb]; simpl.
    + now rewrite Ha.
    + rewrite Hb. now destruct (PyFloat.parse (PyStr.strip a)).
  - destruct (parse_pair_raises_ValueError _ _ Hp) as [msg ->]. reflexivity.
Qed.

Lemma split_two_has_sep sep s a b :
  PyStr.split sep s = [a; b] -> s <> "" /\ PyStr.has_char sep s = true.
Proof.
  intros H. split.
  - intros ->. discriminate H.
  - destruct (PyStr.has_char sep s) eqn:E; [reflexivity |].
    rewrite (split_no_sep _ _ E) in H. discriminate H.
Qed.

(** The accepting path of [_parse_location]: two pieces, both floats. *)
Lemma parse_location_reads_pair self loc a b x y :
  PyStr.split PyStr.comma loc = [a; b] ->
  PyFloat.parse (PyStr.strip a) = Some x ->
  PyFloat.parse (PyStr.strip b) = Some y ->
  GooglePlacesTool._parse_location self (Some loc) = Ok (x, y).
Proof.
  intros Hsplit Ha Hb. destruct (split_two_has_sep _ _ _ _ Hsplit) as [Hne Hsep].
  unfold GooglePlacesTool._parse_location.
  apply String.eqb_neq in Hne. rewrite Hne, Hsep. simpl.
  unfold GooglePlacesTool.parse_pair, rbind, unpack2, py_float.
  rewrite Hsplit. simpl. now rewrite Ha, Hb.
Qed.

(** C4.  On a tool as its constructor builds it, [_parse_location] is
    exact on well-formed input: it maps ["44.8176,20.4633"] to exactly the
    floats 44.8176 and 20.4633, ["48.8583,2.3375"] to exactly 48.8583 and
    2.3375, and in general every string made of two comma-separated pieces
    that read as floats to exactly those two floats.  It maps
    ["not-a-number,also-bad"], and every string whose two comma-separated
    parts do not both read as floats, to the default coordinate
    (44.8176, 20.4633), returning normally. *)
Theorem parse_location_exact_or_default api_key w :
  exists self,
    GooglePlacesTool.__init__ api_key w = (Ok self, w)
    /\ GooglePlacesTool._parse_location self (Some "44.8176,20.4633")
       = Ok (44.8176%float, 20.4633%float)
    /\ GooglePlacesTool._parse_location self (Some "48.8583,2.3375")
       = Ok (48.8583%float, 2.3375%float)
    /\ (forall loc a b x y,
          PyStr.split PyStr.comma loc = [a; b] ->
          PyFloat.parse (PyStr.strip a) = Some x ->
          PyFloat.parse (PyStr.strip b) = Some y ->
          GooglePlacesTool._parse_location self (Some loc) = Ok (x, y))
    /\ GooglePlacesTool._parse_location self (Some "not-a-number,also-bad")
       = Ok (44.8176%float, 20.4633%float)
    /\ (forall loc,
          (forall a b, PyStr.split PyStr.comma loc = [a; b] ->
             PyFloat.parse (PyStr.strip a) = None \/ PyFloat.parse (PyStr.strip b) = None) ->
          GooglePlacesTool._parse_location self (Some loc)
          = Ok (44.8176%float, 20.4633%float)).
Proof.
  destruct (places_init_defaults api_key w) as (self & Hinit & Hlat & Hlng & _).
  exists self. split; [exact Hinit |]. split; [| split; [| split; [| split]]].
  - vm_compute. reflexivity.
  - vm_compute. reflexivity.
  - intros loc a b x y. apply parse_location_reads_pair.
  - rewrite <- Hlat, <- Hlng. apply parse_location_fallback.
    intros a b [= <- <-]. left. vm_compute. reflexivity.
  - intros loc Hbad. rewrite <- Hlat, <- Hlng. now apply parse_location_fallback.
Qed.

(** ** Counting requests *)

Lemma issues_ret {A} (a : A) : issues (ret a) [].
Proof. intros w. simpl. now rewrite app_nil_r. Qed.

Lemma issues_raise {A} e : issues (@raise A e) [].
Proof. intros w. simpl. now rewrite app_nil_r. Qed.

Lemma issues_lift {A} (r : Result A) : issues (lift r) [].
Proof. intros w. simpl. now rewrite app_nil_r. Qed.

Lemma issues_print text : issues (print text) [].
Proof. intros w. simpl. now rewrite app_nil_r. Qed.

Lemma issues_get net rq : issues (Requests.get net rq) [rq].
Proof. intros w. now rewrite requests_get_logs. Qed.

Lemma issues_raise_for_status r : issues (Requests.raise_for_status r) [].
Proof.
  unfold Requests.raise_for_status.
  destruct ((400 <=? status_code r) && (status_code r <? 500)); [apply issues_raise |].
  destruct ((500 <=? status_code r) && (status_code r <? 600));
    [apply issues_raise | apply issues_ret].
Qed.

Lemma issues_json r : issues (Requests.json r) [].
Proof.
  unfold Requests.json. destruct (resp_json r); [apply issues_raise | apply issues_ret].
Qed.

(** A continuation that issues nothing leaves the count of [m]. *)
Lemma issues_bind {A B} (m : M A) (k : A -> M B) rqs :
  issues m rqs -> (forall a, issues (k a) []) -> issues (bind m k) rqs.
Proof.
  intros Hm Hk w. unfold bind. specialize (Hm w).
  destruct (m w) as [[a | e] w']; simpl in *; [| exact Hm].
  rewrite (Hk a w'), app_nil_r. exact Hm.
Qed.

Lemma issues_except {A} (body : M A) handler rqs :
  issues body rqs -> (forall msg, issues (handler msg) []) ->
  issues (except_RequestException body handler) rqs.
Proof.
  intros Hb Hh w. unfold except_RequestException. specialize (Hb w).
  destruct (body w) as [[a | e] w']; simpl in *; [exact Hb |].
  destruct e; simpl; try exact Hb.
  rewrite (Hh msg w'), app_nil_r. exact Hb.
Qed.

Create HintDb issues.
#[local] Hint Resolve issues_ret issues_raise issues_lift issues_print issues_get
  issues_raise_for_status issues_json : issues.

(** [_api_request] issues exactly the request built from the coordinates
    left by its two guards. *)
Lemma api_request_issues net self query lat lng radius :
  issues (GooglePlacesTool._api_request net self query lat lng radius)
    [GooglePlacesTool.build_request self query
       (fst (GooglePlacesTool.default_coords self lat lng))
       (snd (GooglePlacesTool.default_coords self lat lng)) radius].
Proof.
  unfold GooglePlacesTool._api_request.
  destruct (GooglePlacesTool.default_coords self lat lng) as [lat' lng']. simpl.
  apply issues_except; [| auto with issues].
  apply issues_bind; [auto with issues |]. intros response.
  apply issues_bind; [auto with issues |]. intros _.
  apply issues_bind; [auto with issues |]. intros data.
  apply issues_bind; [auto with issues |]. intros _.
  destruct (String.eqb (GooglePlacesTool.API_TYPE self) "findplacefromtext");
    auto with issues.
Qed.

(** ** Places: the coordinates that reach the request *)

(** C9.  [_parse_location] returns a pair of floats for every [location]
    ([None] and malformed strings included) and never raises.  So the one
    call [forward] makes to [_api_request] passes two floats: the guards
    [if lat is None] / [if lng is None] leave them as they are, and the
    request that goes out carries exactly the parsed pair.  (Had [lng]
    been [None], the second guard would have overwritten [lat] with the
    default longitude.) *)
Theorem forward_passes_parsed_coordinates net self query location radius w key :
  GooglePlacesTool.google_api_key self = Some key ->
  let search_radius := match radius with
                       | Some r => r
                       | None => GooglePlacesTool.default_radius self
                       end in
  exists lat lng,
    GooglePlacesTool._parse_location self location = Ok (lat, lng)
    /\ GooglePlacesTool.default_coords self (Some lat) (Some lng) = (Some lat, Some lng)
    /\ GooglePlacesTool.forward net self query location radius w
       = bind (GooglePlacesTool._api_request net self query (Some lat) (Some lng) search_radius)
           (fun places =>
              lift (GooglePlacesTool._format_places self query places lat lng search_radius)) w
    /\ net_log (snd (GooglePlacesTool.forward net self query location radius w))
       = (net_log w
          ++ [GooglePlacesTool.build_request self query (Some lat) (Some lng) search_radius])%list
    /\ (forall x, GooglePlacesTool.default_coords self (Some x) None
                  = (Some (GooglePlacesTool.default_lng self), None)).
Proof.
  intros Hkey search_radius.
  destruct (parse_location_total self location) as (lat & lng & Hparse).
  exists lat, lng. split; [exact Hparse |]. split; [reflexivity |].
  assert (GooglePlacesTool.forward net self query location radius w
          = bind (GooglePlacesTool._api_request net self query (Some lat) (Some lng) search_radius)
              (fun places =>
                 lift (GooglePlacesTool._format_places self query places lat lng search_radius)) w)
    as Hfwd.
  { unfold GooglePlacesTool.forward. rewrite Hkey, Hparse. reflexivity. }
  split; [exact Hfwd |]. split; [| reflexivity].
  rewrite Hfwd.
  apply (issues_bind _ _ _ (api_request_issues net self query (Some lat) (Some lng) search_radius)).
  intros places. apply issues_lift.
Qed.

Lemma forward_passes_parsed_coordinates_witness :
  exists lat lng,
    GooglePlacesTool._parse_location places_tool (Some "1,2,3") = Ok (lat, lng)
    /\ net_log (snd (GooglePlacesTool.forward silent_network places_tool "michelin"
                       (Some "1,2,3") None configured_world))
       = [GooglePlacesTool.build_request places_tool "michelin" (Some lat) (Some lng) 5000].
Proof.
  destruct (forward_passes_parsed_coordinates silent_network places_tool "michelin"
              (Some "1,2,3") None configured_world "AIza-key" eq_refl)
    as (lat & lng & Hparse & _ & _ & Hlog & _).
  exists lat, lng. split; [exact Hparse | exact Hlog].
Defined.

(** ** Places: formatting the answer *)

Lemma format_place_object fields :
  exists r, GooglePlacesTool.format_place (JObj fields) = Ok r
            /\ rating_summary_of (JObj fields) r.
Proof.
  unfold GooglePlacesTool.format_place, rating_summary_of, review_count. simpl.
  destruct (Py.dict_lookup "rating" fields) as [rating |]; simpl;
    eexists; (split; [reflexivity |]); reflexivity.
Qed.

Lemma format_each_objects places :
  Forall is_object places ->
  exists records, GooglePlacesTool.format_each places = Ok records
                  /\ Forall2 rating_summary_of places records.
Proof.
  induction 1 as [| place rest Hobj _ (records & Hrest & Hall)].
  - exists []. split; [reflexivity | constructor].
  - destruct place; try contradiction.
    destruct (format_place_object fields) as (r & Hr & Hsum).
    exists (r :: records). split; [| now constructor].
    simpl. rewrite Hr. simpl. rewrite Hrest. reflexivity.
Qed.

Lemma api_request_delivered net self query lat lng radius w top :
  GooglePlacesTool.API_TYPE self = "textsearch" ->
  provider_returns net w
    (GooglePlacesTool.build_request self query (Some lat) (Some lng) radius) (JObj top) ->
  GooglePlacesTool._api_request net self query (Some lat) (Some lng) radius w
  = (Ok (match Py.dict_lookup "results" top with Some v => v | None => JArr [] end),
     printed (logged w (GooglePlacesTool.build_request self query (Some lat) (Some lng) radius))
       (Py.str (JObj top))).
Proof.
  intros Htype (r & Hnet & Hst & Hjs).
  unfold GooglePlacesTool._api_request, GooglePlacesTool.default_coords.
  apply except_ok.
  rewrite (bind_ok _ _ _ _ _ (requests_get_delivered _ _ _ _ Hnet)).
  rewrite (bind_ok _ _ _ _ _ (raise_for_status_ok _ _ Hst)).
  erewrite bind_ok; [| unfold Requests.json; rewrite Hjs; reflexivity].
  erewrite bind_ok; [| reflexivity].
  rewrite Htype. reflexivity.
Qed.

Lemma places_forward_delivered net self query location radius w key top lat lng :
  GooglePlacesTool.google_api_key self = Some key ->
  GooglePlacesTool.API_TYPE self = "textsearch" ->
  GooglePlacesTool._parse_location self location = Ok (lat, lng) ->
  provider_returns net w
    (GooglePlacesTool.build_request self query (Some lat) (Some lng)
       (match radius with Some r => r | None => GooglePlacesTool.default_radius self end))
    (JObj top) ->
  fst (GooglePlacesTool.forward net self query location radius w)
  = GooglePlacesTool._format_places self query
      (match Py.dict_lookup "results" top with Some v => v | None => JArr [] end)
      lat lng (match radius with Some r => r | None => GooglePlacesTool.default_radius self end).
Proof.
  intros Hkey Htype Hparse Hp.
  unfold GooglePlacesTool.forward. rewrite Hkey, Hparse.
  erewrite bind_ok; [| reflexivity].
  erewrite bind_ok; [| apply (api_request_delivered _ _ _ _ _ _ _ _ Htype Hp)].
  reflexivity.
Qed.


Lemma format_places_objects self query places lat lng radius :
  places <> [] ->
  Forall is_object places ->
  exists records,
    GooglePlacesTool._format_places self query (JArr places) lat lng radius
    = Ok (GooglePlacesTool.PlacesList records)
    /\ Forall2 rating_summary_of places records.
Proof.
  intros Hne Hobj. destruct (format_each_objects places Hobj) as (records & Hfmt & Hall).
  exists records. split; [| exact Hall].
  unfold GooglePlacesTool._format_places. destruct places; [congruence |].
  simpl negb. cbv iota. unfold Py.iter. unfold rbind at 1. now rewrite Hfmt.
Qed.




(** C7.  In the list the places adapter returns there is one record per
    place, in the order of the places.  The record of a place without a
    ["rating"] field has the empty string as its rating summary (no number
    is made up); the record of a place with a rating has the summary
    [Rating: <rating>/5 (<count> reviews)] on a line of its own, where the
    count is the place's [user_ratings_total], or 0 without one. *)
Theorem places_rating_summary net self query location radius w key top lat lng places :
  GooglePlacesTool.google_api_key self = Some key ->
  GooglePlacesTool.API_TYPE self = "textsearch" ->
  GooglePlacesTool._parse_location self location = Ok (lat, lng) ->
  provider_returns net w
    (GooglePlacesTool.build_request self query (Some lat) (Some lng)
       (match radius with Some r => r | None => GooglePlacesTool.default_radius self end))
    (JObj top) ->
  Py.dict_lookup "results" top = Some (JArr places) ->
  places <> [] ->
  Forall is_object places ->
  exists records,
    fst (GooglePlacesTool.forward net self query location radius w)
    = Ok (GooglePlacesTool.PlacesList records)
    /\ length records = length places
    /\ forall (i : nat) fields,
         places !! i = Some (JObj fields) ->
         exists r,
           records !! i = Some r
           /\ (Py.dict_lookup "rating" fields = None -> GooglePlacesTool.rating_info r = "")
           /\ (forall rating,
                 Py.dict_lookup "rating" fields = Some rating ->
                 GooglePlacesTool.rating_info r
                 = PyStr.nl +:+ "Rating: " +:+ Py.str rating +:+ "/5 ("
                   +:+ Py.str (match Py.dict_lookup "user_ratings_total" fields with
                               | Some n => n
                               | None => JInt 0
                               end)
                   +:+ " reviews)").
Proof.
  intros Hkey Htype Hparse Hnet Hres Hne Hobj.
  pose proof (places_forward_delivered net self query location radius w key top lat lng
                Hkey Htype Hparse Hnet) as Hfwd.
  rewrite Hres in Hfwd.
  destruct (format_places_objects self query places lat lng
              (match radius with Some r => r | None => GooglePlacesTool.default_radius self end)
              Hne Hobj) as (records & Hfmt & Hall).
  exists records. split; [now rewrite Hfwd |].
  split; [symmetry; exact (Forall2_length _ _ _ Hall) |].
  intros i fields Hi.
  destruct (Forall2_lookup_l _ _ _ _ _ Hall Hi) as (r & Hr & Hsum).
  exists r. split; [exact Hr |].
  unfold rating_summary_of, review_count in Hsum.
  destruct (Py.dict_lookup "rating" fields) as [rating |]; split.
  - discriminate.
  - intros rating' [= <-]. exact Hsum.
  - intros _. exact Hsum.
  - discriminate.
Qed.

Lemma places_rating_summary_witness :
  exists records,
    fst (GooglePlacesTool.forward (answering_once two_places_answer) places_tool "michelin"
           (Some "44.8176,20.4633") (Some 3000) configured_world)
    = Ok (GooglePlacesTool.PlacesList records)
    /\ length records = 2%nat
    /\ (exists r, records !! 0%nat = Some r
                  /\ GooglePlacesTool.rating_info r
                     = PyStr.nl +:+ "Rating: 4.5/5 (1280 reviews)")
    /\ (exists r, records !! 1%nat = Some r /\ GooglePlacesTool.rating_info r = "").
Proof.
  destruct (places_rating_summary (answering_once two_places_answer) places_tool "michelin"
              (Some "44.8176,20.4633") (Some 3000) configured_world "AIza-key"
              [("results", JArr [rated_place; unrated_place]); ("status", JStr "OK")]
              44.8176%float 20.4633%float
              [rated_place; unrated_place]) as (records & Hout & Hlen & Hsum).
  - reflexivity.
  - reflexivity.
  - vm_compute. reflexivity.
  - eexists. split; [reflexivity | split; reflexivity].
  - reflexivity.
  - discriminate.
  - repeat constructor.
  - exists records. split; [exact Hout |]. split; [exact Hlen |]. split.
    + destruct (Hsum 0%nat _ eq_refl) as (r & Hr & _ & H).
      exists r. split; [exact Hr |].
      rewrite (H (JFloat 4.5%float) eq_refl). vm_compute. reflexivity.
    + destruct (Hsum 1%nat _ eq_refl) as (r & Hr & H & _).
      exists r. split; [exact Hr | exact (H eq_refl)].
Defined.

(** ** Determinism *)

Lemma blind_ret {A} (a : A) : world_blind (ret a).
Proof. intros w w'. reflexivity. Qed.

Lemma blind_raise {A} e : world_blind (@raise A e).
Proof. intros w w'. reflexivity. Qed.

Lemma blind_lift {A} (r : Result A) : world_blind (lift r).
Proof. intros w w'. reflexivity. Qed.

Lemma blind_print text : world_blind (print text).
Proof. intros w w'. reflexivity. Qed.

Lemma blind_raise_for_status r : world_blind (Requests.raise_for_status r).
Proof.
  unfold Requests.raise_for_status.
  destruct ((400 <=? status_code r) && (status_code r <? 500)); [apply blind_raise |].
  destruct ((500 <=? status_code r) && (status_code r <? 600));
    [apply blind_raise | apply blind_ret].
Qed.

Lemma blind_json r : world_blind (Requests.json r).
Proof. unfold Requests.json. destruct (resp_json r); [apply blind_raise | apply blind_ret]. Qed.

(** Two runs of [bind m k] agree when the runs of [m] agree and [k] is
    blind to the world. *)
Lemma bind_agree {A B} (m : M A) (k : A -> M B) w w' :
  fst (m w) = fst (m w') -> (forall a, world_blind (k a)) ->
  fst (bind m k w) = fst (bind m k w').
Proof.
  intros Hm Hk. unfold bind.
  destruct (m w) as [[a | e] w1], (m w') as [[a' | e'] w1']; simpl in Hm;
    try discriminate; injection Hm as <-; [apply Hk | reflexivity].
Qed.

Lemma blind_bind {A B} (m : M A) (k : A -> M B) :
  world_blind m -> (forall a, world_blind (k a)) -> world_blind (bind m k).
Proof. intros Hm Hk w w'. apply bind_agree; [apply Hm | exact Hk]. Qed.

Lemma except_agree {A} (body : M A) handler w w' :
  fst (body w) = fst (body w') -> (forall msg, world_blind (handler msg)) ->
  fst (except_RequestException body handler w) = fst (except_RequestException body handler w').
Proof.
  intros Hb Hh. unfold except_RequestException.
  destruct (body w) as [[a | e] w1], (body w') as [[a' | e'] w1']; simpl in Hb;
    try discriminate; injection Hb as <-; [reflexivity |].
  destruct e; try reflexivity. apply Hh.
Qed.

Lemma get_agree net rq w w' :
  net (net_log w) rq = net (net_log w') rq ->
  fst (Requests.get net rq w) = fst (Requests.get net rq w').
Proof. intros H. unfold Requests.get. rewrite H. now destruct (net (net_log w') rq). Qed.

Create HintDb blind.
#[local] Hint Resolve blind_ret blind_raise blind_lift blind_print blind_raise_for_status
  blind_json : blind.

Lemma search_forward_agree net self query filter_year w w' :
  (forall rq, net (net_log w) rq = net (net_log w') rq) ->
  fst (GoogleSearchTool.forward net self query filter_year w)
  = fst (GoogleSearchTool.forward net self query filter_year w').
Proof.
  intros Hnet. unfold GoogleSearchTool.forward.
  destruct (GoogleSearchTool.api_key self) as [key |]; [| reflexivity].
  destruct (GoogleSearchTool.cx self) as [cx_id |]; [| reflexivity].
  apply bind_agree; [| auto with blind].
  apply except_agree; [| auto with blind].
  apply bind_agree; [apply get_agree, Hnet |]. intros response.
  apply blind_bind; auto with blind.
Qed.

Lemma api_request_agree net self query lat lng radius w w' :
  (forall rq, net (net_log w) rq = net (net_log w') rq) ->
  fst (GooglePlacesTool._api_request net self query lat lng radius w)
  = fst (GooglePlacesTool._api_request net self query lat lng radius w').
Proof.
  intros Hnet. unfold GooglePlacesTool._api_request.
  destruct (GooglePlacesTool.default_coords self lat lng) as [lat' lng'].
  apply except_agree; [| auto with blind].
  apply bind_agree; [apply get_agree, Hnet |]. intros response.
  apply blind_bind; [auto with blind |]. intros _.
  apply blind_bind; [auto with blind |]. intros data.
  apply blind_bind; [auto with blind |]. intros _.
  destruct (String.eqb (GooglePlacesTool.API_TYPE self) "findplacefromtext");
    auto with blind.
Qed.

Lemma places_forward_agree net self query location radius w w' :
  (forall rq, net (net_log w) rq = net (net_log w') rq) ->
  fst (GooglePlacesTool.forward net self query location radius w)
  = fst (GooglePlacesTool.forward net self query location radius w').
Proof.
  intros Hnet. unfold GooglePlacesTool.forward.
  destruct (GooglePlacesTool.google_api_key self) as [key |]; [| reflexivity].
  unfold bind at 1 3, lift at 1 3.
  destruct (GooglePlacesTool._parse_location self location) as [coords | e]; [| reflexivity].
  apply bind_agree; [now apply api_request_agree | auto with blind].
Qed.




(** ** Where the credentials come from *)

Lemma or_else_nonempty (s : string) (fallback : option string) :
  s <> "" -> Py.or_else (Some s) fallback = Some s.
Proof.
  intros Hne. unfold Py.or_else. destruct (String.eqb s "") eqn:E; [| reflexivity].
  apply String.eqb_eq in E. contradiction.
Qed.

(** C10, as the code has it.  [GoogleSearchTool(api_key, cx)] keeps a
    non-empty argument whatever the environment holds, and reads
    [GOOGLE_API_KEY] / [GOOGLE_CSE_ID] when the argument is omitted or is
    the empty string.  [GooglePlacesTool(api_key)] goes the other way
    round: it takes [GOOGLE_API_KEY] whenever the variable is set, and its
    argument only when it is not. *)
Theorem credential_precedence api_key cx w :
  exists s p,
    GoogleSearchTool.__init__ api_key cx w = (Ok s, w)
    /\ GooglePlacesTool.__init__ api_key w = (Ok p, w)
    /\ (forall k, api_key = Some k -> k <> "" -> GoogleSearchTool.api_key s = Some k)
    /\ (forall c, cx = Some c -> c <> "" -> GoogleSearchTool.cx s = Some c)
    /\ (api_key = None \/ api_key = Some "" ->
          GoogleSearchTool.api_key s = environ w !! "GOOGLE_API_KEY")
    /\ (cx = None \/ cx = Some "" -> GoogleSearchTool.cx s = environ w !! "GOOGLE_CSE_ID")
    /\ (forall v, environ w !! "GOOGLE_API_KEY" = Some v ->
          GooglePlacesTool.google_api_key p = Some v)
    /\ (environ w !! "GOOGLE_API_KEY" = None -> GooglePlacesTool.google_api_key p = api_key).
Proof.
  eexists. eexists.
  split; [unfold GoogleSearchTool.__init__, bind, environ_get, ret; reflexivity |].
  split; [unfold GooglePlacesTool.__init__, bind, getenv, ret; reflexivity |].
  simpl. repeat split.
  - intros k -> Hne. now apply or_else_nonempty.
  - intros c -> Hne. now apply or_else_nonempty.
  - intros [-> | ->]; reflexivity.
  - intros [-> | ->]; reflexivity.
  - intros v ->. reflexivity.
  - intros ->. reflexivity.
Qed.

(** C10 as worded does not hold for the empty string: passed explicitly
    as [api_key] and [cx], it loses to the environment. *)
Lemma search_init_empty_arguments_lose :
  exists s,
    GoogleSearchTool.__init__ (Some "") (Some "") both_configured_world
    = (Ok s, both_configured_world)
    /\ GoogleSearchTool.api_key s = Some "env-key"
    /\ GoogleSearchTool.cx s = Some "env-cse-id"
    /\ GoogleSearchTool.api_key s <> Some ""
    /\ GoogleSearchTool.cx s <> Some "".
Proof.
  eexists. split; [vm_compute; reflexivity |]. simpl.
  repeat split; discriminate.
Qed.

(** ** The model of the built-ins, on sample values *)

Example float_of_lat : py_float "44.8176" = Ok 44.8176%float.
Proof. vm_compute. reflexivity. Qed.

Example float_of_padded : py_float (PyStr.strip " 20.4633 ") = Ok 20.4633%float.
Proof. vm_compute. reflexivity. Qed.

Example float_of_words : PyFloat.parse "not-a-number" = None.
Proof. vm_compute. reflexivity. Qed.

Example float_of_nan : PyFloat.parse "NaN" = Some nan.
Proof. vm_compute. reflexivity. Qed.

Example float_of_underscores : PyFloat.parse "1_000.5e-1" = Some 100.05%float.
Proof. vm_compute. reflexivity. Qed.

Example repr_of_lat : PyFloatRepr.repr 44.8176%float = "44.8176".
Proof. vm_compute. reflexivity. Qed.

Example repr_of_small : PyFloatRepr.repr 0.00001%float = "1e-05".
Proof. vm_compute. reflexivity. Qed.

Example repr_of_whole : PyFloatRepr.repr 5000%float = "5000.0".
Proof. vm_compute. reflexivity. Qed.

Example split_three : PyStr.split PyStr.comma "1,2,3" = ["1"; "2"; "3"].
Proof. reflexivity. Qed.

Example str_of_dict :
  Py.str (JObj [("results", JArr [JInt 1; JNull; JStr "it's"]); ("ok", JBool true)])
  = "{'results': [1, None, " +:+ String PyStr.quote2 "it's" +:+ String PyStr.quote2 "], 'ok': True}".
Proof. vm_compute. reflexivity. Qed.

(** The four malformed locations of C9 all give the default pair. *)
Example parse_location_malformed :
  map (GooglePlacesTool._parse_location places_tool)
    [None; Some ""; Some "44.8176 20.4633"; Some "1,2,3"]
  = repeat (Ok (44.8176%float, 20.4633%float)) 4.
Proof. vm_compute. reflexivity. Qed.

Example no_places_sentence :
  GooglePlacesTool._format_places places_tool "michelin" (JArr [])
    44.8176%float 20.4633%float 5000
  = Ok (GooglePlacesTool.PlacesText
          "No places found for 'michelin' within 5000m of coordinates 44.8176,20.4633.").
Proof. vm_compute. reflexivity. Qed.

Example places_request_location :
  GooglePlacesTool.build_params places_tool "michelin"
    (Some 44.8176%float) (Some 20.4633%float) 5000 !! "location"
  = Some (JStr "44.8176,20.4633").
Proof. vm_compute. reflexivity. Qed.

(** What the second guard of [_api_request] would send, were [lng] ever
    [None]. *)
Example places_request_without_lng :
  GooglePlacesTool.build_params places_tool "michelin"
    (fst (GooglePlacesTool.default_coords places_tool (Some 1%float) None))
    (snd (GooglePlacesTool.default_coords places_tool (Some 1%float) None)) 5000 !! "location"
  = Some (JStr "20.4633,None").
Proof. vm_compute. reflexivity. Qed.

Example truthy_floats :
  map Py.truthy [JFloat 0%float; JFloat (-0)%float; JFloat nan; JFloat 0.5%float]
  = [false; false; true; true].
Proof. vm_compute. reflexivity. Qed.


(** The proviso of C8 matters: when the provider answers the second call
    differently, so does the adapter. *)
Example changed_answer_changes_output :
  fst (GoogleSearchTool.forward (answering_once two_items_answer) search_tool "pont des arts"
         None unconfigured_world)
  <> fst (GoogleSearchTool.forward (answering_once two_items_answer) search_tool
            "pont des arts" None
            (snd (GoogleSearchTool.forward (answering_once two_items_answer) search_tool
                    "pont des arts" None unconfigured_world))).
Proof. vm_compute. discriminate. Qed.

(** * Further properties of the adapters *)

(** ** What a run leaves behind *)

Lemma quiet_ret {A} (a : A) : quiet (ret a).
Proof. intros w. split; reflexivity. Qed.

Lemma quiet_raise {A} e : quiet (@raise A e).
Proof. intros w. split; reflexivity. Qed.

Lemma quiet_lift {A} (r : Result A) : quiet (lift r).
Proof. intros w. split; reflexivity. Qed.

Lemma quiet_get net rq : quiet (Requests.get net rq).
Proof. intros w. rewrite requests_get_logs. split; reflexivity. Qed.

Lemma quiet_raise_for_status r : quiet (Requests.raise_for_status r).
Proof.
  unfold Requests.raise_for_status.
  destruct ((400 <=? status_code r) && (status_code r <? 500)); [apply quiet_raise |].
  destruct ((500 <=? status_code r) && (status_code r <? 600));
    [apply quiet_raise | apply quiet_ret].
Qed.

Lemma quiet_json r : quiet (Requests.json r).
Proof. unfold Requests.json. destruct (resp_json r); [apply quiet_raise | apply quiet_ret]. Qed.

Lemma quiet_bind {A B} (m : M A) (k : A -> M B) :
  quiet m -> (forall a, quiet (k a)) -> quiet (bind m k).
Proof.
  intros Hm Hk w. unfold bind. destruct (Hm w) as [He Hs].
  destruct (m w) as [[a | e] w']; simpl in *; [| now split].
  destruct (Hk a w') as [He' Hs']. split; congruence.
Qed.

Lemma quiet_except {A} (body : M A) handler :
  quiet body -> (forall msg, quiet (handler msg)) ->
  quiet (except_RequestException body handler).
Proof.
  intros Hb Hh w. unfold except_RequestException. destruct (Hb w) as [He Hs].
  destruct (body w) as [[a | e] w']; simpl in *; [now split |].
  destruct e; simpl; try (now split).
  destruct (Hh msg w') as [He' Hs']. split; congruence.
Qed.

Create HintDb quiet.
#[local] Hint Resolve quiet_ret quiet_raise quiet_lift quiet_get quiet_raise_for_status
  quiet_json : quiet.

(** ** Web search: the request and its failures *)

(** With both credentials in place, one call of [forward] sends exactly
    one request, the one built from the credentials, the query and the
    year filter, whether the provider answers, fails or answers badly;
    it never writes to standard output or to the environment. *)
Theorem search_forward_sends_one_request net self query filter_year key cx_id :
  GoogleSearchTool.api_key self = Some key ->
  GoogleSearchTool.cx self = Some cx_id ->
  issues (GoogleSearchTool.forward net self query filter_year)
    [GoogleSearchTool.build_request key cx_id query filter_year]
  /\ quiet (GoogleSearchTool.forward net self query filter_year).
Proof.
  intros Hk Hc. unfold GoogleSearchTool.forward. rewrite Hk, Hc. split.
  - apply issues_bind; [| auto with issues].
    apply issues_except; [| auto with issues].
    apply issues_bind; [auto with issues |]. intros response.
    apply issues_bind; auto with issues.
  - apply quiet_bind; [| auto with quiet].
    apply quiet_except; [| auto with quiet].
    apply quiet_bind; [auto with quiet |]. intros response.
    apply quiet_bind; auto with quiet.
Qed.

Lemma search_forward_sends_one_request_witness :
  net_log (snd (GoogleSearchTool.forward (refusing "Connection refused") search_tool
                  "pont des arts" (Some 2024) unconfigured_world))
  = [GoogleSearchTool.build_request "AIza-key" "cse-id" "pont des arts" (Some 2024)].
Proof.
  destruct (search_forward_sends_one_request (refusing "Connection refused") search_tool
              "pont des arts" (Some 2024) "AIza-key" "cse-id" eq_refl eq_refl) as [H _].
  exact (H unconfigured_world).
Defined.

Lemma status_not_ok_raises r w :
  status_ok r = false ->
  exists msg, Requests.raise_for_status r w = (Raise (RequestException msg), w)
              /\ begins_with (PyStr.of_int (status_code r)) msg.
Proof.
  unfold status_ok, Requests.raise_for_status. intros H.
  apply negb_false_iff in H. apply andb_true_iff in H as [Hlo Hhi].
  rewrite Hlo. simpl. destruct (status_code r <? 500) eqn:H5.
  - eexists. split; [reflexivity |]. eexists. reflexivity.
  - apply Z.ltb_ge, Z.leb_le in H5. rewrite H5, Hhi. simpl.
    eexists. split; [reflexivity |]. eexists. reflexivity.
Qed.

(** The three ways the [try] block of the two classes fails: the
    transport fails, the status is an error, the body is not JSON.  Each
    ends in a [RequestException] after the request went out. *)
Lemma fetch_fails net rq w :
  (forall msg, net (net_log w) rq = Failed msg ->
     (let! response := Requests.get net rq in
      let! _ := Requests.raise_for_status response in
      Requests.json response) w = (Raise (RequestException msg), logged w rq))
  /\ (forall r, net (net_log w) rq = Delivered r -> status_ok r = false ->
        exists msg,
          (let! response := Requests.get net rq in
           let! _ := Requests.raise_for_status response in
           Requests.json response) w = (Raise (RequestException msg), logged w rq)
          /\ begins_with (PyStr.of_int (status_code r)) msg)
  /\ (forall r msg, net (net_log w) rq = Delivered r -> status_ok r = true ->
        resp_json r = inl msg ->
        (let! response := Requests.get net rq in
         let! _ := Requests.raise_for_status response in
         Requests.json response) w = (Raise (RequestException msg), logged w rq)).
Proof.
  split; [| split].
  - intros msg Hnet. apply bind_raise. unfold Requests.get. now rewrite Hnet.
  - intros r Hnet Hst.
    destruct (status_not_ok_raises r (logged w rq) Hst) as (msg & Hraise & Hpre).
    exists msg. split; [| exact Hpre].
    rewrite (bind_ok _ _ _ _ _ (requests_get_delivered _ _ _ _ Hnet)).
    now apply bind_raise.
  - intros r msg Hnet Hst Hjs.
    rewrite (bind_ok _ _ _ _ _ (requests_get_delivered _ _ _ _ Hnet)).
    rewrite (bind_ok _ _ _ _ _ (raise_for_status_ok _ _ Hst)).
    unfold Requests.json. now rewrite Hjs.
Qed.

Lemma except_caught {A} (body : M A) handler w msg w' :
  body w = (Raise (RequestException msg), w') ->
  except_RequestException body handler w = handler msg w'.
Proof. intros H. unfold except_RequestException. now rewrite H. Qed.

(** Every failure of the request reaches the caller of the web search as
    a [ValueError] whose text is the fixed prefix followed by the text of
    the underlying error: a failed transport, an error status (the text
    then starts with the status code, and the body is not looked at), a
    body that is not JSON. *)
Theorem search_forward_wraps_request_failures net self query filter_year w key cx_id :
  GoogleSearchTool.api_key self = Some key ->
  GoogleSearchTool.cx self = Some cx_id ->
  (forall msg,
     net (net_log w) (GoogleSearchTool.build_request key cx_id query filter_year) = Failed msg ->
     fst (GoogleSearchTool.forward net self query filter_year w)
     = Raise (ValueError (search_error_prefix +:+ msg)))
  /\ (forall r,
        net (net_log w) (GoogleSearchTool.build_request key cx_id query filter_year)
        = Delivered r ->
        status_ok r = false ->
        exists msg,
          fst (GoogleSearchTool.forward net self query filter_year w)
          = Raise (ValueError (search_error_prefix +:+ msg))
          /\ begins_with (PyStr.of_int (status_code r)) msg)
  /\ (forall r msg,
        net (net_log w) (GoogleSearchTool.build_request key cx_id query filter_year)
        = Delivered r ->
        status_ok r = true ->
        resp_json r = inl msg ->
        fst (GoogleSearchTool.forward net self query filter_year w)
        = Raise (ValueError (search_error_prefix +:+ msg))).
Proof.
  intros Hk Hc.
  destruct (fetch_fails net (GoogleSearchTool.build_request key cx_id query filter_year) w)
    as (Hfail & Hstatus & Hbody).
  unfold GoogleSearchTool.forward. rewrite Hk, Hc. split; [| split].
  - intros msg Hnet.
    erewrite bind_raise; [reflexivity |].
    erewrite except_caught; [reflexivity | exact (Hfail msg Hnet)].
  - intros r Hnet Hst. destruct (Hstatus r Hnet Hst) as (msg & Hrun & Hpre).
    exists msg. split; [| exact Hpre].
    erewrite bind_raise; [reflexivity |].
    erewrite except_caught; [reflexivity | exact Hrun].
  - intros r msg Hnet Hst Hjs.
    erewrite bind_raise; [reflexivity |].
    erewrite except_caught; [reflexivity | exact (Hbody r msg Hnet Hst Hjs)].
Qed.

Lemma search_forward_wraps_request_failures_witness :
  fst (GoogleSearchTool.forward (refusing "Connection refused") search_tool
         "pont des arts" None unconfigured_world)
  = Raise (ValueError "Error making request to Google Custom Search API: Connection refused").
Proof.
  destruct (search_forward_wraps_request_failures (refusing "Connection refused") search_tool
              "pont des arts" None unconfigured_world "AIza-key" "cse-id" eq_refl eq_refl)
    as [H _].
  exact (H "Connection refused" eq_refl).
Defined.

(** ** Web search: what the answer may look like *)

Lemma numbered_lines_by_link start items items' :
  map link_text items = map link_text items' ->
  map numbered_line (Py.enumerate_from start items)
  = map numbered_line (Py.enumerate_from start items').
Proof.
  revert start items'. induction items as [| item rest IH]; intros start [| item' rest'] H;
    try discriminate; [reflexivity |].
  simpl in H. injection H as Hhead Hrest. simpl.
  unfold numbered_line at 1 3. simpl. rewrite Hhead. f_equal. now apply IH.
Qed.

(** The numbered list shows links only: two answers whose items (JSON
    objects) have, position by position, the same link text give the same
    output, whatever their titles and other fields are. *)
Theorem search_output_shows_links_only query filter_year fields fields' items items' :
  Py.dict_lookup "items" fields = Some (JArr items) ->
  Py.dict_lookup "items" fields' = Some (JArr items') ->
  Forall is_object items ->
  Forall is_object items' ->
  map link_text items = map link_text items' ->
  GoogleSearchTool.render query filter_year (JObj fields)
  = GoogleSearchTool.render query filter_year (JObj fields').
Proof.
  intros Hf Hf' Hobj Hobj' Hlinks.
  destruct items as [| item rest], items' as [| item' rest']; try discriminate.
  - unfold GoogleSearchTool.render.
    now rewrite (no_items_empty _ Hf), (no_items_empty _ Hf').
  - rewrite (render_items query filter_year fields (item :: rest) _ Hf
               ltac:(discriminate) (format_items_objects 0 _ Hobj)).
    rewrite (render_items query filter_year fields' (item' :: rest') _ Hf'
               ltac:(discriminate) (format_items_objects 0 _ Hobj')).
    unfold Py.enumerate. now rewrite (numbered_lines_by_link 0 _ _ Hlinks).
Qed.

Lemma search_output_shows_links_only_witness :
  GoogleSearchTool.render "pont des arts" None
    (JObj [("items", JArr [JObj [("title", JStr "A"); ("link", JStr "https://example.org/a")]])])
  = GoogleSearchTool.render "pont des arts" None
      (JObj [("items", JArr [JObj [("link", JStr "https://example.org/a");
                                   ("snippet", JStr "a bridge")]])]).
Proof.
  apply (search_output_shows_links_only "pont des arts" None _ _
           [JObj [("title", JStr "A"); ("link", JStr "https://example.org/a")]]
           [JObj [("link", JStr "https://example.org/a"); ("snippet", JStr "a bridge")]]).
  - reflexivity.
  - reflexivity.
  - repeat constructor.
  - repeat constructor.
  - reflexivity.
Defined.

(** An answer that is JSON but not an object.  A list or a string that
    does not hold ["items"] counts as "no results"; a list or string that
    does, and [null], a number or a boolean, end in a [TypeError]. *)
Theorem search_answer_not_an_object query filter_year :
  (forall items, existsb (Py.json_is_str "items") items = false ->
     GoogleSearchTool.render query filter_year (JArr items)
     = Ok (GoogleSearchTool.no_results_message query filter_year))
  /\ (forall s, PyStr.has_substring "items" s = false ->
        GoogleSearchTool.render query filter_year (JStr s)
        = Ok (GoogleSearchTool.no_results_message query filter_year))
  /\ (forall items, existsb (Py.json_is_str "items") items = true ->
        GoogleSearchTool.render query filter_year (JArr items) = Raise TypeError)
  /\ (forall s, PyStr.has_substring "items" s = true ->
        GoogleSearchTool.render query filter_year (JStr s) = Raise TypeError)
  /\ GoogleSearchTool.render query filter_year JNull = Raise TypeError
  /\ (forall b, GoogleSearchTool.render query filter_year (JBool b) = Raise TypeError)
  /\ (forall n, GoogleSearchTool.render query filter_year (JInt n) = Raise TypeError)
  /\ (forall x, GoogleSearchTool.render query filter_year (JFloat x) = Raise TypeError).
Proof.
  unfold GoogleSearchTool.render, GoogleSearchTool.no_items, rbind. simpl.
  repeat split; try (intros ? H; rewrite H; reflexivity); reflexivity.
Qed.

Lemma format_items_non_object start items :
  Exists (fun item => ~ is_object item) items ->
  GoogleSearchTool.format_items (Py.enumerate_from start items) = Raise AttributeError.
Proof.
  intros Hex. revert start. induction Hex as [item rest Hbad | item rest _ IH]; intros start.
  - destruct item; try reflexivity. exfalso. apply Hbad. exact I.
  - simpl. destruct item; try reflexivity.
    unfold GoogleSearchTool.format_item, rbind at 1. simpl. rewrite IH. reflexivity.
Qed.

(** Every item must be a JSON object: as soon as one element of
    ["items"] is something else (a string, a number, [null], a list),
    the call ends in an [AttributeError] and nothing of the list is
    returned. *)
Theorem search_items_must_be_objects query filter_year fields items :
  Py.dict_lookup "items" fields = Some (JArr items) ->
  Exists (fun item => ~ is_object item) items ->
  GoogleSearchTool.render query filter_year (JObj fields) = Raise AttributeError.
Proof.
  intros Hf Hex. unfold GoogleSearchTool.render.
  destruct items as [| item rest]; [inversion Hex |].
  rewrite (no_items_nonempty _ _ _ Hf). unfold rbind at 1.
  unfold Py.getitem. rewrite Hf. unfold rbind at 1, Py.iter. unfold rbind at 1.
  unfold Py.enumerate. now rewrite (format_items_non_object 0 _ Hex).
Qed.

Lemma search_items_must_be_objects_witness :
  GoogleSearchTool.render "pont des arts" None
    (JObj [("items", JArr [JObj [("link", JStr "https://example.org/a")];
                           JStr "https://example.org/b"])])
  = Raise AttributeError.
Proof.
  apply (search_items_must_be_objects "pont des arts" None _
           [JObj [("link", JStr "https://example.org/a")]; JStr "https://example.org/b"]).
  - reflexivity.
  - apply Exists_cons_tl. apply Exists_cons_hd. intros H. exact H.
Defined.

(** ** Places: which locations are accepted *)

Lemma split_length sep s : length (PyStr.split sep s) = S (count_char sep s).
Proof.
  induction s as [| c s IH]; [reflexivity |]. simpl.
  destruct (Ascii.eqb c sep); simpl; [now rewrite IH |].
  destruct (PyStr.split sep s); simpl in *; [discriminate | exact IH].
Qed.

(** A location is accepted when it splits at its comma into exactly two
    pieces that both read as floats once the blanks around them are
    stripped; the pair returned is exactly what [float] makes of the two
    pieces. *)
Theorem parse_location_accepts_a_pair self loc a b x y :
  PyStr.split PyStr.comma loc = [a; b] ->
  PyFloat.parse (PyStr.strip a) = Some x ->
  PyFloat.parse (PyStr.strip b) = Some y ->
  GooglePlacesTool._parse_location self (Some loc) = Ok (x, y).
Proof.
  intros Hsplit Ha Hb. destruct (split_two_has_sep _ _ _ _ Hsplit) as [Hne Hsep].
  unfold GooglePlacesTool._parse_location.
  apply String.eqb_neq in Hne. rewrite Hne, Hsep. simpl.
  unfold GooglePlacesTool.parse_pair, rbind, unpack2, py_float.
  rewrite Hsplit. simpl. now rewrite Ha, Hb.
Qed.

Lemma parse_location_accepts_a_pair_witness :
  GooglePlacesTool._parse_location places_tool (Some " 48.8583 ,2.3375")
  = Ok (48.8583%float, 2.3375%float).
Proof.
  apply (parse_location_accepts_a_pair places_tool " 48.8583 ,2.3375" " 48.8583 " "2.3375").
  - reflexivity.
  - vm_compute. reflexivity.
  - vm_compute. reflexivity.
Defined.

(** A location whose number of commas is not one is never parsed: it
    gives the default coordinates, even when every piece is a number. *)
Theorem parse_location_needs_one_comma self loc :
  count_char PyStr.comma loc <> 1%nat ->
  GooglePlacesTool._parse_location self (Some loc)
  = Ok (GooglePlacesTool.default_lat self, GooglePlacesTool.default_lng self).
Proof.
  intros Hcount. apply parse_location_fallback. intros a b Hsplit. exfalso.
  apply Hcount. pose proof (split_length PyStr.comma loc) as Hlen.
  rewrite Hsplit in Hlen. simpl in Hlen. congruence.
Qed.

Lemma parse_location_needs_one_comma_witness :
  GooglePlacesTool._parse_location places_tool (Some "48.8583,2.3375,35")
  = Ok (44.8176%float, 20.4633%float).
Proof.
  apply (parse_location_needs_one_comma places_tool "48.8583,2.3375,35").
  vm_compute. discriminate.
Defined.

(** ** Places: the request, its failures and what gets printed *)

Lemma places_forward_run net self query location radius w key lat lng :
  GooglePlacesTool.google_api_key self = Some key ->
  GooglePlacesTool._parse_location self location = Ok (lat, lng) ->
  GooglePlacesTool.forward net self query location radius w
  = bind (GooglePlacesTool._api_request net self query (Some lat) (Some lng)
            (search_radius_of self radius))
      (fun places =>
         lift (GooglePlacesTool._format_places self query places lat lng
                 (search_radius_of self radius))) w.
Proof.
  intros Hkey Hparse. unfold GooglePlacesTool.forward. rewrite Hkey, Hparse. reflexivity.
Qed.

Lemma api_request_run net self query lat lng radius w v :
  provider_returns net w
    (GooglePlacesTool.build_request self query (Some lat) (Some lng) radius) v ->
  GooglePlacesTool._api_request net self query (Some lat) (Some lng) radius w
  = (Py.get v (places_key self) (JArr []),
     printed (logged w (GooglePlacesTool.build_request self query (Some lat) (Some lng) radius))
       (Py.str v)).
Proof.
  intros (r & Hnet & Hst & Hjs).
  unfold GooglePlacesTool._api_request, GooglePlacesTool.default_coords, places_key.
  unfold except_RequestException.
  rewrite (bind_ok _ _ _ _ _ (requests_get_delivered _ _ _ _ Hnet)).
  rewrite (bind_ok _ _ _ _ _ (raise_for_status_ok _ _ Hst)).
  erewrite bind_ok; [| unfold Requests.json; rewrite Hjs; reflexivity].
  erewrite bind_ok; [| reflexivity].
  destruct (String.eqb (GooglePlacesTool.API_TYPE self) "findplacefromtext"); unfold lift.
  - destruct (Py.get v "candidates" (JArr [])) as [a | e] eqn:E; [reflexivity |].
    destruct v; simpl in E; try discriminate E; injection E as <-; reflexivity.
  - destruct (Py.get v "results" (JArr [])) as [a | e] eqn:E; [reflexivity |].
    destruct v; simpl in E; try discriminate E; injection E as <-; reflexivity.
Qed.

Lemma get_not_object v key default :
  ~ is_object v -> Py.get v key default = Raise AttributeError.
Proof. intros H. destruct v; try reflexivity. exfalso. apply H. exact I. Qed.

(** Whenever the provider delivers a JSON body under a good status, one
    call of the places search leaves exactly two traces: the request in
    the log and the whole body, as [print] shows it, on standard output.
    When that body is not a JSON object the call ends in an
    [AttributeError], which is not turned into the adapter's
    [ValueError]. *)
Theorem places_forward_prints_answer net self query location radius w key lat lng v :
  GooglePlacesTool.google_api_key self = Some key ->
  GooglePlacesTool._parse_location self location = Ok (lat, lng) ->
  provider_returns net w
    (GooglePlacesTool.build_request self query (Some lat) (Some lng)
       (search_radius_of self radius)) v ->
  snd (GooglePlacesTool.forward net self query location radius w)
  = printed (logged w (GooglePlacesTool.build_request self query (Some lat) (Some lng)
                         (search_radius_of self radius)))
      (Py.str v)
  /\ (~ is_object v ->
        fst (GooglePlacesTool.forward net self query location radius w)
        = Raise AttributeError).
Proof.
  intros Hkey Hparse Hp.
  rewrite (places_forward_run _ _ _ _ _ _ _ _ _ Hkey Hparse).
  unfold bind. rewrite (api_request_run _ _ _ _ _ _ _ _ Hp). split.
  - destruct (Py.get v (places_key self) (JArr [])); reflexivity.
  - intros Hv. now rewrite (get_not_object _ _ _ Hv).
Qed.

Lemma places_forward_prints_answer_witness :
  stdout (snd (GooglePlacesTool.forward (answering (JArr [])) places_tool "michelin" None None
                 configured_world))
  = ["[]" +:+ PyStr.nl]
  /\ fst (GooglePlacesTool.forward (answering (JArr [])) places_tool "michelin" None None
            configured_world)
     = Raise AttributeError.
Proof.
  destruct (places_forward_prints_answer (answering (JArr [])) places_tool "michelin" None None
              configured_world "AIza-key" 44.8176%float 20.4633%float (JArr []))
    as [Hworld Hresult].
  - reflexivity.
  - reflexivity.
  - eexists. split; [reflexivity | split; reflexivity].
  - split; [rewrite Hworld; reflexivity | apply Hresult; intros H; exact H].
Defined.

(** Every failure of the request reaches the caller of the places search
    as a [ValueError] whose text is the fixed prefix followed by the text
    of the underlying error; the request is in the log and nothing was
    printed. *)
Theorem places_forward_wraps_request_failures net self query location radius w key lat lng :
  GooglePlacesTool.google_api_key self = Some key ->
  GooglePlacesTool._parse_location self location = Ok (lat, lng) ->
  let rq := GooglePlacesTool.build_request self query (Some lat) (Some lng)
              (search_radius_of self radius) in
  (forall msg,
     net (net_log w) rq = Failed msg ->
     GooglePlacesTool.forward net self query location radius w
     = (Raise (ValueError (places_error_prefix +:+ msg)), logged w rq))
  /\ (forall r,
        net (net_log w) rq = Delivered r ->
        status_ok r = false ->
        exists msg,
          GooglePlacesTool.forward net self query location radius w
          = (Raise (ValueError (places_error_prefix +:+ msg)), logged w rq)
          /\ begins_with (PyStr.of_int (status_code r)) msg)
  /\ (forall r msg,
        net (net_log w) rq = Delivered r ->
        status_ok r = true ->
        resp_json r = inl msg ->
        GooglePlacesTool.forward net self query location radius w
        = (Raise (ValueError (places_error_prefix +:+ msg)), logged w rq)).
Proof.
  intros Hkey Hparse rq.
  rewrite (places_forward_run _ _ _ _ _ _ _ _ _ Hkey Hparse).
  unfold GooglePlacesTool._api_request, GooglePlacesTool.default_coords. fold rq.
  split; [| split].
  - intros msg Hnet. apply bind_raise.
    erewrite except_caught; [reflexivity |].
    apply bind_raise. unfold Requests.get. now rewrite Hnet.
  - intros r Hnet Hst.
    destruct (status_not_ok_raises r (logged w rq) Hst) as (msg & Hraise & Hpre).
    exists msg. split; [| exact Hpre]. apply bind_raise.
    erewrite except_caught; [reflexivity |].
    rewrite (bind_ok _ _ _ _ _ (requests_get_delivered _ _ _ _ Hnet)).
    now apply bind_raise.
  - intros r msg Hnet Hst Hjs. apply bind_raise.
    erewrite except_caught; [reflexivity |].
    rewrite (bind_ok _ _ _ _ _ (requests_get_delivered _ _ _ _ Hnet)).
    rewrite (bind_ok _ _ _ _ _ (raise_for_status_ok _ _ Hst)).
    apply bind_raise. unfold Requests.json. now rewrite Hjs.
Qed.

Lemma places_forward_wraps_request_failures_witness :
  exists msg,
    fst (GooglePlacesTool.forward (answering_with 403 "Forbidden" denied_answer) places_tool
           "michelin" None None configured_world)
    = Raise (ValueError (places_error_prefix +:+ msg))
    /\ begins_with "403" msg.
Proof.
  destruct (places_forward_wraps_request_failures
              (answering_with 403 "Forbidden" denied_answer) places_tool
              "michelin" None None configured_world "AIza-key"
              44.8176%float 20.4633%float eq_refl eq_refl) as (_ & Hstatus & _).
  destruct (Hstatus _ eq_refl eq_refl) as (msg & Hrun & Hpre).
  exists msg. split; [now rewrite Hrun | exact Hpre].
Defined.

(** The radius goes out as given: an explicit radius, zero or negative
    ones included, is sent unchanged, and only an omitted radius is
    replaced by the tool's default.  The request also carries the query
    and the key verbatim, under a timeout of 10. *)
Theorem places_request_carries_radius net self query location radius w key :
  GooglePlacesTool.google_api_key self = Some key ->
  GooglePlacesTool.API_TYPE self = "textsearch" ->
  exists rq,
    net_log (snd (GooglePlacesTool.forward net self query location radius w))
    = (net_log w ++ [rq])%list
    /\ req_params rq !! "radius"
       = Some (JInt (match radius with
                     | Some r => r
                     | None => GooglePlacesTool.default_radius self
                     end))
    /\ req_params rq !! "query" = Some (JStr query)
    /\ req_params rq !! "key" = Some (JStr key)
    /\ req_url rq = GooglePlacesTool.url self
    /\ req_timeout rq = Some 10.
Proof.
  intros Hkey Htype.
  destruct (parse_location_total self location) as (lat & lng & Hparse).
  exists (GooglePlacesTool.build_request self query (Some lat) (Some lng)
            (search_radius_of self radius)).
  split.
  - rewrite (places_forward_run _ _ _ _ _ _ _ _ _ Hkey Hparse).
    apply (issues_bind _ _ _ (api_request_issues net self query (Some lat) (Some lng) _)).
    intros places. apply issues_lift.
  - unfold GooglePlacesTool.build_request, GooglePlacesTool.build_params. simpl.
    rewrite Htype, Hkey. simpl. repeat split.
Qed.

Lemma places_request_carries_radius_witness :
  exists rq,
    net_log (snd (GooglePlacesTool.forward silent_network places_tool "michelin" None (Some 0)
                    configured_world)) = [rq]
    /\ req_params rq !! "radius" = Some (JInt 0).
Proof.
  destruct (places_request_carries_radius silent_network places_tool "michelin" None (Some 0)
              configured_world "AIza-key" eq_refl eq_refl) as (rq & Hlog & Hradius & _).
  exists rq. split; [exact Hlog | exact Hradius].
Defined.

(** ** Places: formatting, on every shape of [places] *)

Lemma format_each_non_object places :
  Exists (fun place => ~ is_object place) places ->
  GooglePlacesTool.format_each places = Raise AttributeError.
Proof.
  induction 1 as [place rest Hbad | place rest _ IH].
  - destruct place; try reflexivity. exfalso. apply Hbad. exact I.
  - destruct place; try reflexivity.
    destruct (format_place_object fields) as (r & Hr & _).
    simpl. rewrite Hr. unfold rbind at 1. now rewrite IH.
Qed.

(** [_format_places] beyond lists of objects.  Every falsy value ([null],
    [false], [0], [0.0], the empty string, list or object) gives the "No
    places found" sentence; a truthy number or boolean ends in a
    [TypeError]; a non-empty string or object, and a list with an element
    that is not an object, end in an [AttributeError]. *)
Theorem format_places_by_shape self query lat lng radius :
  (forall places, Py.truthy places = false ->
     GooglePlacesTool._format_places self query places lat lng radius
     = Ok (GooglePlacesTool.PlacesText
             (GooglePlacesTool.no_places_message query lat lng radius)))
  /\ (forall n, n <> 0 ->
        GooglePlacesTool._format_places self query (JInt n) lat lng radius = Raise TypeError)
  /\ (forall x, Py.truthy (JFloat x) = true ->
        GooglePlacesTool._format_places self query (JFloat x) lat lng radius = Raise TypeError)
  /\ GooglePlacesTool._format_places self query (JBool true) lat lng radius = Raise TypeError
  /\ (forall s, s <> "" ->
        GooglePlacesTool._format_places self query (JStr s) lat lng radius
        = Raise AttributeError)
  /\ (forall fields, fields <> [] ->
        GooglePlacesTool._format_places self query (JObj fields) lat lng radius
        = Raise AttributeError)
  /\ (forall places, Exists (fun place => ~ is_object place) places ->
        GooglePlacesTool._format_places self query (JArr places) lat lng radius
        = Raise AttributeError).
Proof.
  unfold GooglePlacesTool._format_places. repeat split.
  - intros places ->. reflexivity.
  - intros n Hn. simpl. apply Z.eqb_neq in Hn. now rewrite Hn.
  - intros x Hx. now rewrite Hx.
  - intros s Hs. destruct s as [| c s]; [congruence | reflexivity].
  - intros fields Hf. destruct fields as [| [k v] rest]; [congruence | reflexivity].
  - intros places Hex. destruct places as [| place rest]; [inversion Hex |].
    simpl negb. cbv iota. unfold Py.iter. unfold rbind at 1.
    now rewrite (format_each_non_object _ Hex).
Qed.

Lemma format_each_fields places records :
  GooglePlacesTool.format_each places = Ok records ->
  Forall2 (fun place r =>
             exists fields,
               place = JObj fields
               /\ GooglePlacesTool.name r = field_or fields "name" "Unnamed location"
               /\ GooglePlacesTool.address r
                  = field_or fields "formatted_address" "No address available"
               /\ GooglePlacesTool.place_id r = field_or fields "place_id" "No ID")
    places records.
Proof.
  revert records. induction places as [| place rest IH]; intros records H.
  - injection H as <-. constructor.
  - simpl in H. destruct place; try discriminate H.
    destruct (format_place_object fields) as (r & Hr & _).
    pose proof Hr as Hr'. unfold GooglePlacesTool.format_place in Hr'. simpl in Hr'.
    rewrite Hr in H. unfold rbind at 1 in H.
    destruct (GooglePlacesTool.format_each rest) as [rs | e]; [| discriminate H].
    injection H as <-. constructor; [| now apply IH].
    exists fields. split; [reflexivity |].
    unfold field_or.
    destruct (Py.dict_lookup "rating" fields); simpl in Hr'; injection Hr' as <-;
      repeat split.
Qed.

(** The records keep the order of the places and copy three fields from
    each: the name, the address and the identifier, each replaced by its
    placeholder when the place lacks it. *)
Theorem places_records_copy_fields self query places lat lng radius records :
  GooglePlacesTool._format_places self query (JArr places) lat lng radius
  = Ok (GooglePlacesTool.PlacesList records) ->
  length records = length places
  /\ forall (i : nat) fields r,
       places !! i = Some (JObj fields) ->
       records !! i = Some r ->
       GooglePlacesTool.name r = field_or fields "name" "Unnamed location"
       /\ GooglePlacesTool.address r
          = field_or fields "formatted_address" "No address available"
       /\ GooglePlacesTool.place_id r = field_or fields "place_id" "No ID".
Proof.
  intros H. unfold GooglePlacesTool._format_places in H.
  destruct places as [| place rest]; [discriminate H |].
  simpl negb in H. cbv iota in H. unfold Py.iter in H. unfold rbind at 1 in H.
  destruct (GooglePlacesTool.format_each (place :: rest)) as [rs | e] eqn:Hfmt;
    [| discriminate H].
  injection H as <-. pose proof (format_each_fields _ _ Hfmt) as Hall. split.
  - symmetry. exact (Forall2_length _ _ _ Hall).
  - intros i fields r Hi Hr.
    destruct (Forall2_lookup_lr _ _ _ _ _ _ Hall Hi Hr) as (fields' & [= <-] & Hrest).
    exact Hrest.
Qed.

Lemma places_records_copy_fields_witness :
  exists records,
    GooglePlacesTool._format_places places_tool "michelin" (JArr [rated_place; unrated_place])
      44.8176%float 20.4633%float 5000
    = Ok (GooglePlacesTool.PlacesList records)
    /\ length records = 2%nat
    /\ (forall r, records !! 1%nat = Some r ->
          GooglePlacesTool.address r = JStr "No address available").
Proof.
  destruct (GooglePlacesTool._format_places places_tool "michelin"
              (JArr [rated_place; unrated_place]) 44.8176%float 20.4633%float 5000)
    as [[text | records] | e] eqn:H; try (vm_compute in H; discriminate H).
  exists records.
  destruct (places_records_copy_fields places_tool "michelin" [rated_place; unrated_place]
              44.8176%float 20.4633%float 5000 records H) as [Hlen Hfields].
  split; [reflexivity |]. split; [exact Hlen |].
  intros r Hr. destruct (Hfields 1%nat _ r eq_refl Hr) as (_ & Haddress & _).
  exact Haddress.
Defined.

(** ** Hours lookup: what it returns and how it fails *)

Lemma first_period_of response first rest :
  periods_of response (first :: rest) -> first_period response = Ok first.
Proof.
  intros (top & result & oh & -> & Hres & Hoh & Hper).
  unfold first_period, rbind, Py.getitem. now rewrite Hres, Hoh, Hper.
Qed.

(** With the key configured and a details answer that lists at least one
    period, the lookup returns the opening and closing time of the first
    period, as the provider wrote them; the periods after the first play
    no part. *)
Theorem hours_returns_first_period net place_id w key response first rest t_open t_close :
  environ w !! "GOOGLE_API_KEY" = Some key ->
  provider_body net w (hours_request place_id key) response ->
  periods_of response (first :: rest) ->
  opens_at first t_open ->
  closes_at first t_close ->
  fst (get_place_working_hours net place_id w)
  = Ok {| open_time := t_open; close_time := t_close |}.
Proof.
  intros Hkey Hbody Hper (fields & opening & -> & Hopen & Hto)
    (fields' & closing & [= <-] & Hclose & Htc).
  rewrite (hours_delivered _ _ _ _ _ Hkey Hbody). simpl.
  rewrite (first_period_of _ _ _ Hper).
  unfold rbind at 1. unfold hours_record, rbind, Py.getitem.
  now rewrite Hopen, Hto, Hclose, Htc.
Qed.

Lemma hours_returns_first_period_witness :
  fst (get_place_working_hours (answering split_shift_answer) "ChIJj61dQgK6j4AR4GeTYWZsKWw"
         configured_world)
  = Ok {| open_time := JStr "1200"; close_time := JStr "1500" |}.
Proof.
  apply (hours_returns_first_period (answering split_shift_answer)
           "ChIJj61dQgK6j4AR4GeTYWZsKWw" configured_world "AIza-key" split_shift_answer
           (JObj [("open", JObj [("day", JInt 1); ("time", JStr "1200")]);
                  ("close", JObj [("day", JInt 1); ("time", JStr "1500")])])
           [JObj [("open", JObj [("day", JInt 1); ("time", JStr "1800")]);
                  ("close", JObj [("day", JInt 1); ("time", JStr "2300")])]]).
  - reflexivity.
  - eexists. split; reflexivity.
  - do 3 eexists. split; [reflexivity |]. split; [reflexivity |]. split; reflexivity.
  - do 2 eexists. split; [reflexivity |]. split; reflexivity.
  - do 2 eexists. split; [reflexivity |]. split; reflexivity.
Defined.

(** A first period that opens but has no ["close"] entry, which is how
    the provider describes a place that is always open, ends the lookup
    in [KeyError('close')]. *)
Theorem hours_of_a_place_that_never_closes net place_id w key response first rest t_open :
  environ w !! "GOOGLE_API_KEY" = Some key ->
  provider_body net w (hours_request place_id key) response ->
  periods_of response (first :: rest) ->
  opens_at first t_open ->
  never_closes first ->
  fst (get_place_working_hours net place_id w) = Raise (KeyError (JStr "close")).
Proof.
  intros Hkey Hbody Hper (fields & opening & -> & Hopen & Hto) (fields' & [= <-] & Hclose).
  rewrite (hours_delivered _ _ _ _ _ Hkey Hbody). simpl.
  rewrite (first_period_of _ _ _ Hper).
  unfold rbind at 1. unfold hours_record, rbind, Py.getitem.
  now rewrite Hopen, Hto, Hclose.
Qed.

Lemma hours_of_a_place_that_never_closes_witness :
  fst (get_place_working_hours (answering always_open_answer) "ChIJj61dQgK6j4AR4GeTYWZsKWw"
         configured_world)
  = Raise (KeyError (JStr "close")).
Proof.
  apply (hours_of_a_place_that_never_closes (answering always_open_answer)
           "ChIJj61dQgK6j4AR4GeTYWZsKWw" configured_world "AIza-key" always_open_answer
           (JObj [("open", JObj [("day", JInt 0); ("time", JStr "0000")])]) []
           (JStr "0000")).
  - reflexivity.
  - eexists. split; reflexivity.
  - do 3 eexists. split; [reflexivity |]. split; [reflexivity |]. split; reflexivity.
  - do 2 eexists. split; [reflexivity |]. split; reflexivity.
  - eexists. split; reflexivity.
Defined.

(** The hours lookup does not look at the HTTP status and does not wrap
    errors.  A body that parses is used whatever the status, so an error
    answer without ["result"] ends in [KeyError('result')]; a failed
    transport or a body that is not JSON reaches the caller as the
    [RequestException] itself, not as a [ValueError]. *)
Theorem hours_ignores_status_and_wraps_nothing net place_id w key :
  environ w !! "GOOGLE_API_KEY" = Some key ->
  (forall r v,
     net (net_log w) (hours_request place_id key) = Delivered r ->
     resp_json r = inr v ->
     fst (get_place_working_hours net place_id w) = rbind (first_period v) hours_record)
  /\ (forall r top,
        net (net_log w) (hours_request place_id key) = Delivered r ->
        status_ok r = false ->
        resp_json r = inr (JObj top) ->
        Py.dict_lookup "result" top = None ->
        fst (get_place_working_hours net place_id w) = Raise (KeyError (JStr "result")))
  /\ (forall msg,
        net (net_log w) (hours_request place_id key) = Failed msg ->
        fst (get_place_working_hours net place_id w) = Raise (RequestException msg))
  /\ (forall r msg,
        net (net_log w) (hours_request place_id key) = Delivered r ->
        resp_json r = inl msg ->
        fst (get_place_working_hours net place_id w) = Raise (RequestException msg)).
Proof.
  intros Hkey.
  assert (forall r v,
            net (net_log w) (hours_request place_id key) = Delivered r ->
            resp_json r = inr v ->
            fst (get_place_working_hours net place_id w) = rbind (first_period v) hours_record)
    as Hany.
  { intros r v Hnet Hjs.
    now rewrite (hours_delivered net place_id w key v Hkey (ex_intro _ r (conj Hnet Hjs))). }
  split; [exact Hany |]. split; [| split].
  - intros r top Hnet _ Hjs Hres. rewrite (Hany r _ Hnet Hjs).
    unfold first_period, rbind, Py.getitem. now rewrite Hres.
  - intros msg Hnet. unfold get_place_working_hours.
    erewrite bind_ok; [| unfold environ_item; rewrite Hkey; reflexivity].
    erewrite bind_ok; [| reflexivity].
    erewrite bind_raise; [reflexivity |].
    unfold Requests.get. simpl. now rewrite Hnet.
  - intros r msg Hnet Hjs. unfold get_place_working_hours.
    erewrite bind_ok; [| unfold environ_item; rewrite Hkey; reflexivity].
    erewrite bind_ok; [| reflexivity].
    erewrite bind_ok; [| apply requests_get_delivered; exact Hnet].
    erewrite bind_raise; [reflexivity |].
    unfold Requests.json. now rewrite Hjs.
Qed.

Lemma hours_ignores_status_witness :
  fst (get_place_working_hours (answering_with 403 "Forbidden" denied_answer)
         "ChIJj61dQgK6j4AR4GeTYWZsKWw" configured_world)
  = Raise (KeyError (JStr "result")).
Proof.
  destruct (hours_ignores_status_and_wraps_nothing
              (answering_with 403 "Forbidden" denied_answer)
              "ChIJj61dQgK6j4AR4GeTYWZsKWw" configured_world "AIza-key" eq_refl)
    as (_ & Hstatus & _).
  exact (Hstatus _ _ eq_refl eq_refl eq_refl eq_refl).
Defined.

(** With the key configured, one call of the hours lookup sends exactly
    one request, whatever happens next.  The request names the place, the
    three fields and the key, carries an empty header map and sets no
    timeout.  Before sending it the lookup prints the field list, once;
    the environment is left as it was. *)
Theorem hours_sends_one_request net place_id w key :
  environ w !! "GOOGLE_API_KEY" = Some key ->
  exists rq,
    net_log (snd (get_place_working_hours net place_id w)) = (net_log w ++ [rq])%list
    /\ stdout (snd (get_place_working_hours net place_id w))
       = (stdout w ++ ["name,url,opening_hours" +:+ PyStr.nl])%list
    /\ environ (snd (get_place_working_hours net place_id w)) = environ w
    /\ req_url rq = "https://maps.googleapis.com/maps/api/place/details/json"
    /\ req_params rq !! "place_id" = Some (JStr place_id)
    /\ req_params rq !! "fields" = Some (JStr "name,url,opening_hours")
    /\ req_params rq !! "key" = Some (JStr key)
    /\ req_headers rq = Some []
    /\ req_timeout rq = None.
Proof.
  intros Hkey. exists (hours_request place_id key).
  assert (snd (get_place_working_hours net place_id w)
          = logged (printed w "name,url,opening_hours") (hours_request place_id key)) as ->.
  { unfold get_place_working_hours, bind, environ_item, print, Requests.get, Requests.json,
      lift, raise, ret.
    rewrite Hkey. simpl.
    destruct (net _ _) as [r | msg]; [| reflexivity].
    destruct (resp_json r) as [msg | v]; [reflexivity |]. simpl.
    destruct (first_period v); reflexivity. }
  repeat split.
Qed.

Lemma hours_sends_one_request_witness :
  exists rq,
    net_log (snd (get_place_working_hours (refusing "Connection refused")
                    "ChIJj61dQgK6j4AR4GeTYWZsKWw" configured_world)) = [rq]
    /\ req_timeout rq = None.
Proof.
  destruct (hours_sends_one_request (refusing "Connection refused")
              "ChIJj61dQgK6j4AR4GeTYWZsKWw" configured_world "AIza-key" eq_refl)
    as (rq & Hlog & _ & _ & _ & _ & _ & _ & _ & Htimeout).
  exists rq. split; [exact Hlog | exact Htimeout].
Defined.

(** ** Credentials are fixed when the tool is built *)

(** [forward] of either class reads its credentials from the tool, never
    from the environment: when [GOOGLE_API_KEY] and [GOOGLE_CSE_ID] are
    removed or changed after the tool was built, every other variable
    staying as it was, a call gives the same result. *)
Theorem forward_ignores_credential_variables net env w :
  (forall name, name <> "GOOGLE_API_KEY" -> name <> "GOOGLE_CSE_ID" ->
     env !! name = environ w !! name) ->
  (forall self query filter_year,
     fst (GoogleSearchTool.forward net self query filter_year (with_environ env w))
     = fst (GoogleSearchTool.forward net self query filter_year w))
  /\ (forall self query location radius,
        fst (GooglePlacesTool.forward net self query location radius (with_environ env w))
        = fst (GooglePlacesTool.forward net self query location radius w)).
Proof.
  intros _. split.
  - intros self query filter_year. apply search_forward_agree. intros rq. reflexivity.
  - intros self query location radius. apply places_forward_agree. intros rq. reflexivity.
Qed.

Lemma forward_ignores_credential_variables_witness :
  fst (GooglePlacesTool.forward (answering two_places_answer) places_tool "michelin" None None
         (with_environ ∅ configured_world))
  = fst (GooglePlacesTool.forward (answering two_places_answer) places_tool "michelin" None None
           configured_world).
Proof.
  destruct (forward_ignores_credential_variables (answering two_places_answer) ∅
              configured_world) as [_ Hplaces].
  - intros name Hkey _. simpl. rewrite lookup_empty. symmetry.
    apply lookup_singleton_ne. congruence.
  - apply Hplaces.
Defined.

(** ** [_api_request] on its own *)

(** Called with [lng] left at its default [None], [_api_request] sends a
    request whose location is the default longitude followed by the text
    [None], whatever latitude it was given: the second guard stores the
    default longitude in [lat] and leaves [lng] unset. *)
Theorem api_request_without_lng net self query lat radius :
  GooglePlacesTool.API_TYPE self = "textsearch" ->
  exists rq,
    issues (GooglePlacesTool._api_request net self query lat None radius) [rq]
    /\ req_params rq !! "location"
       = Some (JStr (PyFloatRepr.repr (GooglePlacesTool.default_lng self) +:+ ",None")).
Proof.
  intros Htype. eexists. split; [apply api_request_issues |].
  unfold GooglePlacesTool.build_request, GooglePlacesTool.build_params,
    GooglePlacesTool.default_coords.
  simpl. rewrite Htype. destruct lat; reflexivity.
Qed.

Lemma api_request_without_lng_witness :
  exists rq,
    net_log (snd (GooglePlacesTool._api_request silent_network places_tool "michelin"
                    (Some 48.8583%float) None 5000 configured_world)) = [rq]
    /\ req_params rq !! "location" = Some (JStr "20.4633,None").
Proof.
  destruct (api_request_without_lng silent_network places_tool "michelin"
              (Some 48.8583%float) 5000 eq_refl) as (rq & Hlog & Hloc).
  exists rq. split; [exact (Hlog configured_world) |].
  rewrite Hloc. vm_compute. reflexivity.
Defined.

(** ** Places: the candidate mode *)

(** With [API_TYPE] set to ["findplacefromtext"], the request carries the
    query as [input], the input type [textquery] and a circular location
    bias made of the radius and the coordinates, and the places are read
    from ["candidates"]: a ["results"] list in the answer is ignored. *)
Theorem places_candidate_mode net self query location radius w key lat lng top :
  GooglePlacesTool.google_api_key self = Some key ->
  GooglePlacesTool.API_TYPE self = "findplacefromtext" ->
  GooglePlacesTool._parse_location self location = Ok (lat, lng) ->
  let rq := GooglePlacesTool.build_request self query (Some lat) (Some lng)
              (search_radius_of self radius) in
  provider_returns net w rq (JObj top) ->
  fst (GooglePlacesTool.forward net self query location radius w)
  = GooglePlacesTool._format_places self query
      (match Py.dict_lookup "candidates" top with Some v => v | None => JArr [] end)
      lat lng (search_radius_of self radius)
  /\ req_params rq !! "input" = Some (JStr query)
  /\ req_params rq !! "inputtype" = Some (JStr "textquery")
  /\ req_params rq !! "locationbias"
     = Some (JStr ("circle:" +:+ PyStr.of_int (search_radius_of self radius) +:+ "@"
                   +:+ PyFloatRepr.repr lat +:+ "," +:+ PyFloatRepr.repr lng))
  /\ req_params rq !! "query" = None
  /\ req_params rq !! "radius" = None.
Proof.
  intros Hkey Htype Hparse rq Hp. split.
  - rewrite (places_forward_run _ _ _ _ _ _ _ _ _ Hkey Hparse).
    unfold bind. rewrite (api_request_run _ _ _ _ _ _ _ _ Hp).
    unfold places_key. rewrite Htype. reflexivity.
  - unfold rq, GooglePlacesTool.build_request, GooglePlacesTool.build_params. simpl.
    rewrite Htype. simpl. repeat split.
Qed.

Lemma places_candidate_mode_witness :
  exists records,
    fst (GooglePlacesTool.forward (answering candidates_answer) candidate_tool "enso" None None
           configured_world)
    = Ok (GooglePlacesTool.PlacesList records)
    /\ length records = 1%nat.
Proof.
  destruct (places_candidate_mode (answering candidates_answer) candidate_tool "enso" None None
              configured_world "AIza-key" 44.8176%float 20.4633%float
              [("candidates", JArr [unrated_place]);
               ("results", JArr [rated_place; unrated_place])]) as [Hout _].
  - reflexivity.
  - reflexivity.
  - reflexivity.
  - eexists. split; [reflexivity | split; reflexivity].
  - eexists. split; [rewrite Hout; vm_compute; reflexivity | reflexivity].
Defined.

(** ** Web search: the value under ["items"] *)

(** What [forward] makes of an ["items"] value that is not a list of
    objects: an empty string or object counts as "no results"; [null], a
    number or a boolean ends in a [TypeError]; a non-empty string or
    object is walked through character by character or key by key and
    ends in an [AttributeError]. *)
Theorem search_items_by_shape query filter_year fields :
  (Py.dict_lookup "items" fields = Some (JStr "")
   \/ Py.dict_lookup "items" fields = Some (JObj []) ->
   GoogleSearchTool.render query filter_year (JObj fields)
   = Ok (GoogleSearchTool.no_results_message query filter_year))
  /\ (Py.dict_lookup "items" fields = Some JNull
      \/ (exists b, Py.dict_lookup "items" fields = Some (JBool b))
      \/ (exists n, Py.dict_lookup "items" fields = Some (JInt n))
      \/ (exists x, Py.dict_lookup "items" fields = Some (JFloat x)) ->
      GoogleSearchTool.render query filter_year (JObj fields) = Raise TypeError)
  /\ ((exists s, s <> "" /\ Py.dict_lookup "items" fields = Some (JStr s))
      \/ (exists inner, inner <> [] /\ Py.dict_lookup "items" fields = Some (JObj inner)) ->
      GoogleSearchTool.render query filter_year (JObj fields) = Raise AttributeError).
Proof.
  unfold GoogleSearchTool.render, GoogleSearchTool.no_items, rbind, Py.getitem. simpl.
  split; [| split].
  - intros [-> | ->]; reflexivity.
  - intros [-> | [[b ->] | [[n ->] | [x ->]]]]; reflexivity.
  - intros [(s & Hs & ->) | (inner & Hi & ->)].
    + destruct s as [| c s]; [congruence | reflexivity].
    + destruct inner as [| [k v] rest]; [congruence | reflexivity].
Qed.

(** ** [repr] of a float half-way between two shortest numerals *)

(** Both 822397064294460.2 and 822397064294460.3 read back as
    822397064294460.25, which lies exactly between them: [repr] takes the
    one that ends in an even digit. *)
Example repr_of_tie : PyFloatRepr.repr 822397064294460.25%float = "822397064294460.2".
Proof. vm_compute. reflexivity. Qed.

Example repr_of_tie_up : PyFloatRepr.repr 822397064294460.75%float = "822397064294460.8".
Proof. vm_compute. reflexivity. Qed.
